(** * Brainy_Fools: retail demand forecasting and inventory optimisation

    A shallow embedding of the numeric core of the repository and of the
    front-end helpers the specification talks about:

    - [Inventory]: the Python functions [calculate_reorder_point],
      [calculate_eoq] and the inventory part of the [get_forecast] endpoint
      (workflow document, sections 3 and 5), and [Endpoint]: its error
      handling and the regressors of [train_prophet_model];
    - [Binary64]: [calculate_reorder_point] in double precision;
    - [ForecastPage]: [generateDummyData] of [frontend/src/pages/forecast.js];
    - [Dashboard]: [getStatusStyle] of [frontend/src/pages/analytics.js], and
      [Pages]: the statistics, badges and search box of the inventory pages;
    - [AlertUI]: the [Alert] component;
    - [Ensemble]: the reconciliation rule of the specification, whose code is
      not part of the sources.

    Conventions.  IEEE doubles are idealised: a finite double is a real number
    ([R]) in the Python part and a rational ([Q]) in the JavaScript part, and
    arithmetic on finite values is exact.  The special values that the code
    can actually produce (NaN from an empty slice, the literal
    [float('inf')]) are constructors of [float64].  What is proved on these
    models are the formulas and the order relations that every rounded
    operation preserves; identities that hold only before rounding are not
    stated, and where the rounding decides the code is evaluated on
    [Binary64]. *)

From Stdlib Require Import String Ascii Bool ZArith QArith Qround Qpower.
From Stdlib Require Import Reals Psatz Lia List.
From Stdlib Require Floats Uint63.
Import ListNotations.

(* ================================================================== *)
(** * Python: inventory optimisation *)
(* ================================================================== *)

Module Inventory.

Local Open Scope R_scope.

(** A double as the Python code sees it: finite, an infinity or NaN. *)
Inductive float64 : Type :=
| Fin (x : R)
| PosInf
| NegInf
| NaN.

(** Comparisons with NaN are false, so [fle a b] holds only between values
    that are really ordered. *)
Definition fle (a b : float64) : Prop :=
  match a, b with
  | Fin x, Fin y => x <= y
  | Fin _, PosInf | NegInf, Fin _ | NegInf, PosInf => True
  | PosInf, PosInf | NegInf, NegInf => True
  | _, _ => False
  end.

Definition Rsum (xs : list R) : R := fold_right Rplus 0 xs.

(** [a.mean()] of a one-dimensional numpy array (and [Series.mean()] of
    pandas): the sum over the length, NaN for an empty array. *)
Definition np_mean (xs : list R) : float64 :=
  match xs with
  | [] => NaN
  | _ :: _ => Fin (Rsum xs / INR (length xs))
  end.

(** Sum of the squared deviations of [xs] from [m]. *)
Definition sq_dev (m : R) (xs : list R) : R :=
  Rsum (map (fun x => (x - m) * (x - m)) xs).

(** [a.std()] of a numpy array: [sqrt(mean(abs(a - a.mean())**2))], that is,
    [ddof = 0], the divisor is the number of elements [N].  NaN for an empty
    array. *)
Definition np_std (xs : list R) : float64 :=
  match np_mean xs with
  | Fin m => Fin (sqrt (sq_dev m xs / INR (length xs)))
  | other => other
  end.

(** [def calculate_reorder_point(forecast, lead_time, safety_stock_factor=1.5)].
    [forecast] is a numpy array ([forecast['yhat'].tail(...).values] at the
    call site), [forecast[:lead_time]] is its prefix of [lead_time] elements
    (all of it when it is shorter), [lead_time ** 0.5] the square root.
    [lead_time] is a number of days, a [nat] here.  Arithmetic on NaN gives
    NaN. *)
Definition calculate_reorder_point
    (forecast : list R) (lead_time : nat) (safety_stock_factor : R) : float64 :=
  let avg_daily_demand := np_mean (firstn lead_time forecast) in
  let std_demand := np_std (firstn lead_time forecast) in
  match avg_daily_demand, std_demand with
  | Fin avg, Fin sd =>
      let safety_stock := safety_stock_factor * sd * sqrt (INR lead_time) in
      let reorder_point := avg * INR lead_time + safety_stock in
      Fin reorder_point
  | _, _ => NaN
  end.

Definition default_safety_stock_factor : R := 15 / 10.

(** Python exceptions, by class name. *)
Inductive py_exception : Type := PyExc (class_name : string).

Definition ZeroDivisionError : py_exception := PyExc "ZeroDivisionError".
Definition InvalidCostParametersError : py_exception :=
  PyExc "InvalidCostParametersError".

Inductive outcome (A : Type) : Type :=
| Returns (v : A)
| Raises (e : py_exception).
Arguments Returns {A} v.
Arguments Raises {A} e.

Definition bind {A B} (m : outcome A) (k : A -> outcome B) : outcome B :=
  match m with
  | Returns v => k v
  | Raises e => Raises e
  end.

Notation "x <- m ;; k" := (bind m (fun x => k))
  (at level 61, m at next level, right associativity).

(** A Python number: [x ** 0.5] leaves the floats when [x] is negative.  The
    complex result is computed in polar form, and both of its components
    carry the rounding of that computation (the real part is small but not
    0), so the model records only that the result is complex. *)
Inductive pynum : Type :=
| PyFloat (x : R)
| PyComplex.

(** [a / b] on Python floats. *)
Definition py_truediv (a b : R) : outcome R :=
  if Req_dec_T b 0 then Raises ZeroDivisionError else Returns (a / b).

(** [x ** 0.5] on a Python float: the square root, and for a negative base
    a complex number. *)
Definition py_pow_half (x : R) : pynum :=
  if Rlt_dec x 0 then PyComplex else PyFloat (sqrt x).

(** [def calculate_eoq(annual_demand, ordering_cost, holding_cost_percentage,
    unit_cost)]. *)
Definition calculate_eoq
    (annual_demand ordering_cost holding_cost_percentage unit_cost : R)
    : outcome pynum :=
  let holding_cost := holding_cost_percentage * unit_cost in
  q <- py_truediv (2 * annual_demand * ordering_cost) holding_cost ;;
  let eoq := py_pow_half q in
  Returns eoq.

(** ** The inventory part of [get_forecast] *)

(** [s.tail(n)]: the last [n] rows. *)
Definition tail {A} (n : nat) (xs : list A) : list A :=
  skipn (length xs - n) xs.

(** [a > 0] on a double. *)
Definition gt_zero (a : float64) : bool :=
  match a with
  | Fin x => if Rlt_dec 0 x then true else false
  | PosInf => true
  | NegInf | NaN => false
  end.

(** What numpy reports when a division has no finite result. *)
Inductive np_warning : Type := DivideByZero | InvalidValue.

(** [a / b] on numpy doubles, with the warnings it emits. *)
Definition np_truediv (a : R) (b : float64) : float64 * list np_warning :=
  match b with
  | Fin y =>
      if Req_dec_T y 0 then
        if Req_dec_T a 0 then (NaN, [InvalidValue])
        else if Rlt_dec 0 a then (PosInf, [DivideByZero])
        else (NegInf, [DivideByZero])
      else (Fin (a / y), [])
  | PosInf | NegInf => (Fin 0, [])
  | NaN => (NaN, [])
  end.

(** ["days_until_stockout": float(latest_inventory / average_daily_demand)
    if average_daily_demand > 0 else float('inf')]. *)
Definition days_until_stockout
    (latest_inventory : R) (average_daily_demand : float64)
    : float64 * list np_warning :=
  if gt_zero average_daily_demand
  then np_truediv latest_inventory average_daily_demand
  else (PosInf, []).

(** A row of the model's prediction: [ds], [yhat], [yhat_lower],
    [yhat_upper] ([ds] as a day number). *)
Record ForecastRow : Type := {
  ds : Z;
  yhat : R;
  yhat_lower : R;
  yhat_upper : R
}.

(** The [response] dictionary. *)
Record ForecastResponse : Type := {
  resp_forecast : list ForecastRow;
  resp_current_inventory : R;
  resp_average_daily_demand : float64;
  resp_reorder_point : float64;
  resp_days_until_stockout : float64
}.

(** What the function [get_forecast] itself does: it returns the dictionary
    or raises an [HTTPException]. *)
Inductive handler_result : Type :=
| Returned (body : ForecastResponse)
| HTTPException (status_code : nat).

(** [get_forecast], from the point where the rows of the product and the
    model's prediction are known (training and prediction are Prophet's).
    [inventory_level] is the [Inventory Level] column of the product's rows,
    [forecast] the data frame [model.predict(future)] returned.  The 404
    raised for a product without rows is raised inside the [try] block, whose
    [except Exception] turns it into a 500. *)
Definition get_forecast
    (inventory_level : list R) (forecast : list ForecastRow)
    (forecast_days : nat) : handler_result :=
  match inventory_level with
  | [] => HTTPException 500
  | _ :: _ =>
      let latest_inventory := last inventory_level 0 in
      let horizon := map yhat (tail forecast_days forecast) in
      let average_daily_demand := np_mean horizon in
      let lead_time := 7%nat in
      let reorder_point :=
        calculate_reorder_point horizon lead_time default_safety_stock_factor in
      Returned {| resp_forecast := tail forecast_days forecast;
               resp_current_inventory := latest_inventory;
               resp_average_daily_demand := average_daily_demand;
               resp_reorder_point := reorder_point;
               resp_days_until_stockout :=
                 fst (days_until_stockout latest_inventory
                                          average_daily_demand) |}
  end.

(** ** The route [@app.post("/api/forecast")] *)

(** What the client receives. *)
Inductive http_response : Type :=
| Ok200 (body : ForecastResponse)
| ErrorResponse (status_code : nat).

Definition json_finite (x : float64) : bool :=
  match x with
  | Fin _ => true
  | PosInf | NegInf | NaN => false
  end.

(** The dictionary that the function returns is rendered by the framework's
    [JSONResponse], whose [render] calls [json.dumps(content, allow_nan=False,
    ...)]: an infinity or a NaN among the values raises [ValueError].  The
    rows of [forecast] and [current_inventory] are finite. *)
Definition json_compliant (body : ForecastResponse) : bool :=
  json_finite (resp_average_daily_demand body)
  && json_finite (resp_reorder_point body)
  && json_finite (resp_days_until_stockout body).

(** The route: the function runs, and what it returns is rendered.  The
    rendering happens after the function has returned, outside its [try]
    block, so its [ValueError] is answered by the server with a 500. *)
Definition post_api_forecast
    (inventory_level : list R) (forecast : list ForecastRow)
    (forecast_days : nat) : http_response :=
  match get_forecast inventory_level forecast forecast_days with
  | HTTPException status_code => ErrorResponse status_code
  | Returned body =>
      if json_compliant body then Ok200 body else ErrorResponse 500
  end.

(** Two days for which the model predicts no demand at all. *)
Definition zero_demand_rows : list ForecastRow :=
  [ {| ds := 1; yhat := 0; yhat_lower := 0; yhat_upper := 0 |};
    {| ds := 2; yhat := 0; yhat_lower := 0; yhat_upper := 0 |} ].

(** Two rows of a prediction, for the examples. *)
Definition sample_rows : list ForecastRow :=
  [ {| ds := 1; yhat := 4; yhat_lower := 3; yhat_upper := 5 |};
    {| ds := 2; yhat := 6; yhat_lower := 5; yhat_upper := 7 |} ].

End Inventory.

(* ================================================================== *)
(** * The reorder point as the specification words it *)
(* ================================================================== *)

Module InventorySpec.

Import Inventory.
Local Open Scope R_scope.

(** Sample standard deviation, divisor [N - 1], and zero for a window of a
    single point (section 4.3, contract 1). *)
Definition sample_std (xs : list R) : R :=
  match xs with
  | [] | [_] => 0
  | _ => sqrt (sq_dev (Rsum xs / INR (length xs)) xs / (INR (length xs) - 1))
  end.

(** [reorder_point] of contract 1; [None] stands for
    [InsufficientHorizonError]. *)
Definition reorder_point
    (forecast : list R) (lead_time_days : nat) (safety_factor : R) : option R :=
  if (length forecast <? lead_time_days)%nat then None
  else
    let window := firstn lead_time_days forecast in
    let average_daily_demand := Rsum window / INR (length window) in
    let demand_std := sample_std window in
    let safety_stock := safety_factor * demand_std * sqrt (INR lead_time_days) in
    Some (average_daily_demand * INR lead_time_days + safety_stock).

End InventorySpec.

(* ================================================================== *)
(** * The reorder point in double precision *)
(* ================================================================== *)

(** The same function on binary64 values, with the operations in the order
    in which numpy and Python carry them out, each rounded to the nearest
    double.  It is what the code computes to the last bit, and it serves to
    evaluate the code where the rounding decides. *)
Module Binary64.

Import Floats.
Local Open Scope float_scope.

(** [float(n)] for a Python [int]. *)
Definition of_nat (n : nat) : float :=
  PrimFloat.of_uint63 (Uint63.of_Z (Z.of_nat n)).

(** The summation loop [for (i = 0; i < n; i++) res += a[i]]. *)
Definition sum_loop (res : float) (xs : list float) : float :=
  fold_left PrimFloat.add xs res.

Fixpoint zip_add (r block : list float) : list float :=
  match r, block with
  | x :: r', y :: block' => (x + y) :: zip_add r' block'
  | _, _ => r
  end.

(** [for (i = 8; i < n - (n % 8); i += 8) r[j] += a[i + j]]: the eight
    accumulators take the full blocks of eight; what is left is returned. *)
Fixpoint add_blocks (fuel : nat) (r rest : list float)
  : list float * list float :=
  match fuel with
  | O => (r, rest)
  | S fuel' =>
      if (8 <=? length rest)%nat
      then add_blocks fuel' (zip_add r (firstn 8 rest)) (skipn 8 rest)
      else (r, rest)
  end.

Definition unrolled_sum (xs : list float) : float :=
  let (r, rest) := add_blocks (length xs) (firstn 8 xs) (skipn 8 xs) in
  match r with
  | [r0; r1; r2; r3; r4; r5; r6; r7] =>
      sum_loop (((r0 + r1) + (r2 + r3)) + ((r4 + r5) + (r6 + r7))) rest
  | _ => nan
  end.

(** numpy's pairwise summation of a contiguous array of doubles: a plain
    loop below 8 elements, eight accumulators up to 128 elements, and two
    halves (the first a multiple of 8) above.  [fuel] bounds the depth of
    the halving. *)
Fixpoint pairwise_sum (fuel : nat) (xs : list float) : float :=
  let n := length xs in
  if (n <? 8)%nat then sum_loop 0 xs
  else if (n <=? 128)%nat then unrolled_sum xs
  else
    match fuel with
    | O => nan
    | S fuel' =>
        let n2 := (n / 2)%nat in
        let n2 := (n2 - n2 mod 8)%nat in
        pairwise_sum fuel' (firstn n2 xs) + pairwise_sum fuel' (skipn n2 xs)
    end.

(** [np.add.reduce]: the result starts as the identity of the addition and
    the sum of the array is added to it. *)
Definition np_sum (xs : list float) : float :=
  0 + pairwise_sum (length xs) xs.

(** [a.mean()]: [np.add.reduce(a) / n]; [0 / 0] is NaN. *)
Definition np_mean (xs : list float) : float :=
  np_sum xs / of_nat (length xs).

(** [a.std()] with [ddof = 0]: the mean is subtracted from every element,
    the differences are squared and summed, the sum is divided by [n], and
    the root is taken. *)
Definition np_std (xs : list float) : float :=
  let arrmean := np_sum xs / of_nat (length xs) in
  let x := map (fun a => a - arrmean) xs in
  let x := map (fun d => d * d) x in
  PrimFloat.sqrt (np_sum x / of_nat (length xs)).

(** [calculate_reorder_point]; [lead_time ** 0.5] is the C library's
    [pow(lead_time, 0.5)], taken here to be the correctly rounded root. *)
Definition calculate_reorder_point
    (forecast : list float) (lead_time : nat) (safety_stock_factor : float)
  : float :=
  let avg_daily_demand := np_mean (firstn lead_time forecast) in
  let std_demand := np_std (firstn lead_time forecast) in
  let safety_stock :=
    safety_stock_factor * std_demand * PrimFloat.sqrt (of_nat lead_time) in
  let reorder_point := avg_daily_demand * of_nat lead_time + safety_stock in
  reorder_point.

(** The double nearest to 0.9, and the double just below it. *)
Definition d0_9 : float := 0x1.ccccccccccccdp-1.
Definition d0_9_pred : float := 0x1.cccccccccccccp-1.

(** A forecast of 0.9 units on the first day and none on the next two. *)
Definition one_sale : list float := [ d0_9; 0; 0 ].

(** Thirty days of constant demand 10, and the default safety factor. *)
Definition constant_demand : list float := repeat 10 30.
Definition default_safety_stock_factor : float := 1.5.

End Binary64.

(* ================================================================== *)
(** * JavaScript: the forecast page's data generator *)
(* ================================================================== *)

Module ForecastPage.

Local Open Scope Q_scope.

(** [Math.floor], [Math.round] (halves go up) and [Math.pow] with the
    integer exponents the page uses. *)
Definition Math_floor (x : Q) : Z := Qfloor x.
Definition Math_round (x : Q) : Z := Qfloor (x + (1 # 2)).
Definition Math_pow (x : Q) (n : nat) : Q := Qpower x (Z.of_nat n).

(** [Math.random()] is the one effect of the generator: a computation reads
    the next value of a stream of draws and moves on.  The state is the
    number of draws consumed so far. *)
Section Random.

Variable random : nat -> Q.

Definition Rand (A : Type) : Type := nat -> A * nat.

Definition ret {A} (a : A) : Rand A := fun n => (a, n).

Definition bind {A B} (m : Rand A) (k : A -> Rand B) : Rand B :=
  fun n => let (a, n') := m n in k a n'.

Definition Math_random : Rand Q := fun n => (random n, S n).

Notation "x <- m ;; k" := (bind m (fun x => k))
  (at level 61, m at next level, right associativity).

(** [Array.from({ length }).map(f)]: [f] runs on the indices in order. *)
Fixpoint map_indices {A} (f : nat -> Rand A) (index count : nat)
  : Rand (list A) :=
  match count with
  | O => ret []
  | S count' =>
      a <- f index ;;
      rest <- map_indices f (S index) count' ;;
      ret (a :: rest)
  end.

(** An element of [predictions]; [date] stands for the date string (as a
    day number), [actual] is [null] from the fourth day on. *)
Record Prediction : Type := {
  date : Z;
  predicted : Z;
  actual : option Z;
  lower : Z;
  upper : Z
}.

(** The callback of [Array.from({ length: 7 }).map((_, index) => ...)].
    The date is read from the clock: [new Date()] is moved by [index] days
    of local time ([setDate]) and printed as the date in UTC
    ([toISOString]), which depends on the time of day and on the time zone.
    [isoDate index] stands for the date that this gives at [index]. *)
Definition prediction_at
    (isoDate : nat -> Z) (baseValue : Z) (seasonalFactor trendFactor : Q)
    (index : nat) : Rand Prediction :=
  let date := isoDate index in
  let predicted :=
    Math_round (inject_Z baseValue * Math_pow trendFactor index
                * seasonalFactor) in
  actual <- (if (index <? 3)%nat
             then r <- Math_random ;;
                  ret (Some (Math_round (inject_Z predicted
                                         * (r * (1 # 10) + (95 # 100)))))
             else ret None) ;;
  let variance := inject_Z predicted * (15 # 100) in
  ret {| date := date;
         predicted := predicted;
         actual := actual;
         lower := Math_round (inject_Z predicted - variance);
         upper := Math_round (inject_Z predicted + variance) |}.

(** The [predictions] array of [generateDummyData]; the metrics, insights
    and trends that the function returns beside it are display strings. *)
Definition generateDummyData (isoDate : nat -> Z) : Rand (list Prediction) :=
  r1 <- Math_random ;;
  let baseValue := (Math_floor (r1 * 1000) + 500)%Z in
  r2 <- Math_random ;;
  let seasonalFactor := r2 * (3 # 10) + (85 # 100) in
  r3 <- Math_random ;;
  let trendFactor := r3 * (1 # 10) + (95 # 100) in
  map_indices (prediction_at isoDate baseValue seasonalFactor trendFactor) 0 7.

End Random.

(** The invariant of a forecast entry: the value lies within its bounds. *)
Definition within_bounds (p : Prediction) : Prop :=
  (lower p <= predicted p <= upper p)%Z.

(** A stream of draws is what [Math.random] can return: values of [0, 1). *)
Definition valid_random (random : nat -> Q) : Prop :=
  forall n, 0 <= random n /\ random n < 1.

End ForecastPage.

(* ================================================================== *)
(** * JavaScript: status badges of the dashboard *)
(* ================================================================== *)

Module Dashboard.

Local Open Scope string_scope.

(** [getStatusStyle] of the analytics page. *)
Definition getStatusStyle (status : string) : string :=
  if status =? "Reorder needed" then
    "bg-red-100 text-red-800 border-red-200"
  else if status =? "Stock sufficient" then
    "bg-green-100 text-green-800 border-green-200"
  else if status =? "Out of Stock" then
    "bg-red-500 text-white border-red-600"
  else
    "bg-blue-100 text-blue-800 border-blue-200".

(** The status of a recommendation, and the text the pages compare the
    [Status] field with. *)
Inductive Status : Type := Sufficient | ReorderNeeded | OutOfStock.

Definition status_label (s : Status) : string :=
  match s with
  | Sufficient => "Stock sufficient"
  | ReorderNeeded => "Reorder needed"
  | OutOfStock => "Out of Stock"
  end.

(** Modelled from the spec: the status rule of [evaluate] (section 4.3,
    contract 3).  The service behind [/inventory-recommendations], which
    computes the [Status] field, is not part of the sources; the pages only
    display it.  "status = OutOfStock if current_stock == 0; ReorderNeeded if
    current_stock <= reorder_point; else Sufficient." *)
Definition evaluate_status (current_stock reorder_point : R) : Status :=
  if Req_dec_T current_stock 0 then OutOfStock
  else if Rle_dec current_stock reorder_point then ReorderNeeded
  else Sufficient.

End Dashboard.

(* ================================================================== *)
(** * JavaScript: the Alert component *)
(* ================================================================== *)

Module AlertUI.

Local Open Scope string_scope.

(** The values a property read on [variants] can give. *)
Inductive js_value : Type :=
| JsUndefined
| JsString (s : string)
| JsFunction (name : string)
| JsObject.

(** The object literal [variants]: its own properties. *)
Definition variants : list (string * js_value) :=
  [ ("default", JsString "bg-blue-50 text-blue-800");
    ("destructive", JsString "bg-red-50 text-red-800");
    ("success", JsString "bg-green-50 text-green-800");
    ("warning", JsString "bg-yellow-50 text-yellow-800") ].

(** An object literal inherits from [Object.prototype], whose properties
    ECMAScript fixes: the constructor, the methods, and the [__proto__]
    accessor, which yields the prototype object itself. *)
Definition Object_prototype : list (string * js_value) :=
  [ ("constructor", JsFunction "Object");
    ("__defineGetter__", JsFunction "__defineGetter__");
    ("__defineSetter__", JsFunction "__defineSetter__");
    ("hasOwnProperty", JsFunction "hasOwnProperty");
    ("__lookupGetter__", JsFunction "__lookupGetter__");
    ("__lookupSetter__", JsFunction "__lookupSetter__");
    ("isPrototypeOf", JsFunction "isPrototypeOf");
    ("propertyIsEnumerable", JsFunction "propertyIsEnumerable");
    ("toString", JsFunction "toString");
    ("valueOf", JsFunction "valueOf");
    ("__proto__", JsObject);
    ("toLocaleString", JsFunction "toLocaleString") ].

Fixpoint own_property (props : list (string * js_value)) (key : string)
  : option js_value :=
  match props with
  | [] => None
  | (k, v) :: rest => if k =? key then Some v else own_property rest key
  end.

(** [obj[key]] for an object literal: the own property, else the inherited
    one, else [undefined]. *)
Definition js_get (obj : list (string * js_value)) (key : string) : js_value :=
  match own_property obj key with
  | Some v => v
  | None =>
      match own_property Object_prototype key with
      | Some v => v
      | None => JsUndefined
      end
  end.

(** The string a value becomes inside a template literal. *)
Definition js_to_string (v : js_value) : string :=
  match v with
  | JsUndefined => "undefined"
  | JsString s => s
  | JsFunction name => "function " ++ name ++ "() { [native code] }"
  | JsObject => "[object Object]"
  end.

(** [variants[variant]] inside [Alert]; a prop that is not passed takes the
    default of the parameter list, ['default']. *)
Definition variant_style (variant : option string) : js_value :=
  let variant := match variant with Some v => v | None => "default" end in
  js_get variants variant.

(** The [className] of the [div] that [Alert] renders:
    [`rounded-md p-4 ${variants[variant]} ${className}`]. *)
Definition Alert_className (variant className : option string) : string :=
  let className := match className with Some c => c | None => "" end in
  "rounded-md p-4 " ++ js_to_string (variant_style variant) ++ " " ++ className.

Definition declared_variants : list string :=
  [ "default"; "destructive"; "success"; "warning" ].

(** [s.includes(t)]. *)
Definition includes (s t : string) : Prop :=
  exists pre post, s = pre ++ t ++ post.

Fixpoint includesb (s t : string) : bool :=
  String.prefix t s ||
  match s with
  | EmptyString => false
  | String _ s' => includesb s' t
  end.

End AlertUI.

(* ================================================================== *)
(** * Ensemble reconciliation *)
(* ================================================================== *)

Module Ensemble.

Local Open Scope R_scope.

(** An entry of a PointForecast (section 3 of the specification). *)
Record ForecastPoint : Type := {
  date : Z;
  mean : R;
  lower_bound : R;
  upper_bound : R
}.

Definition PointForecast : Type := list ForecastPoint.

Record ReconciledForecast : Type := {
  entries : PointForecast;
  component_forecasts : list (string * PointForecast)
}.

Inductive combine_error : Type :=
| HorizonMismatchError
| NoViableForecastError.

Definition horizon (F : PointForecast) : list Z := map date F.

Definition same_horizon (F G : PointForecast) : bool :=
  if list_eq_dec Z.eq_dec (horizon F) (horizon G) then true else false.

Definition scale (w : R) (e : ForecastPoint) : ForecastPoint :=
  {| date := date e;
     mean := w * mean e;
     lower_bound := w * lower_bound e;
     upper_bound := w * upper_bound e |}.

Definition add_point (a b : ForecastPoint) : ForecastPoint :=
  {| date := date a;
     mean := mean a + mean b;
     lower_bound := lower_bound a + lower_bound b;
     upper_bound := upper_bound a + upper_bound b |}.

Fixpoint zip_with {A} (f : A -> A -> A) (xs ys : list A) : list A :=
  match xs, ys with
  | x :: xs', y :: ys' => f x y :: zip_with f xs' ys'
  | _, _ => []
  end.

Fixpoint lookup_weight (weights : list (string * R)) (name : string) : R :=
  match weights with
  | [] => 0
  | (k, w) :: rest => if (k =? name)%string then w else lookup_weight rest name
  end.

(** The weights of the components, normalised to sum to one; equal weights
    when they are all zero. *)
Definition normalised_weights
    (names : list string) (weights : list (string * R)) : list R :=
  let raw := map (lookup_weight weights) names in
  let total := fold_right Rplus 0 raw in
  if Req_dec_T total 0
  then map (fun _ => 1 / INR (length names)) names
  else map (fun w => w / total) raw.

(** Per date, the weighted sum of the components' means and bounds. *)
Definition weighted_sum (ws : list R) (Fs : list PointForecast)
  : PointForecast :=
  match ws, Fs with
  | w :: ws', F :: Fs' =>
      fold_left (fun acc wG => zip_with add_point acc
                                 (map (scale (fst wG)) (snd wG)))
                (List.combine ws' Fs') (map (scale w) F)
  | _, _ => []
  end.

(** Modelled from the spec: [combine] of the EnsembleForecaster (section
    4.2); no implementation of it is part of the sources.  The mappings are
    association lists keyed by model name.  All components must share the
    horizon of the first one, else [HorizonMismatchError]; the weights are
    normalised, with equal weights when all are zero; mean and bounds are the
    weighted sums per date; the components are kept in the result.  An empty
    ensemble has no forecast to return ([NoViableForecastError]); a component
    without an entry in [weights] has weight zero. *)
Definition combine
    (components : list (string * PointForecast))
    (weights : list (string * R))
    : combine_error + ReconciledForecast :=
  match components with
  | [] => inl NoViableForecastError
  | (_, F0) :: _ =>
      if forallb (fun c => same_horizon F0 (snd c)) components then
        let ws := normalised_weights (map fst components) weights in
        inr {| entries := weighted_sum ws (map snd components);
               component_forecasts := components |}
      else inl HorizonMismatchError
  end.

(** The static weighting policy: equal weights. *)
Definition equal_weights (names : list string) : list (string * R) :=
  map (fun n => (n, 1 / INR (length names))) names.

End Ensemble.

(* ================================================================== *)
(** * Python: the endpoint's error handling and the model's regressors *)
(* ================================================================== *)

Module Endpoint.

Import Inventory.
Local Open Scope R_scope.

(** What the [try] block of [get_forecast] does once the rows and the
    prediction are known: it raises [HTTPException(status_code=404)] for a
    product without rows and otherwise returns the response. *)
Inductive try_result : Type :=
| TryReturn (body : ForecastResponse)
| TryRaiseHTTP (status_code : nat).

Definition get_forecast_try
    (inventory_level : list R) (forecast : list ForecastRow)
    (forecast_days : nat) : try_result :=
  if (length inventory_level =? 0)%nat then TryRaiseHTTP 404
  else
    let latest_inventory := last inventory_level 0 in
    let horizon := map yhat (tail forecast_days forecast) in
    let average_daily_demand := np_mean horizon in
    let lead_time := 7%nat in
    let reorder_point :=
      calculate_reorder_point horizon lead_time default_safety_stock_factor in
    TryReturn {| resp_forecast := tail forecast_days forecast;
                 resp_current_inventory := latest_inventory;
                 resp_average_daily_demand := average_daily_demand;
                 resp_reorder_point := reorder_point;
                 resp_days_until_stockout :=
                   fst (days_until_stockout latest_inventory
                                            average_daily_demand) |}.

(** [except Exception as e: raise HTTPException(status_code=500, ...)]:
    [HTTPException] is an [Exception], so the handler catches the 404 too. *)
Definition except_Exception (r : try_result) : handler_result :=
  match r with
  | TryReturn body => Returned body
  | TryRaiseHTTP _ => HTTPException 500
  end.

(** ** [train_prophet_model]: the columns of the training frame *)

Local Open Scope string_scope.

Definition has_column (columns : list string) (name : string) : bool :=
  existsb (String.eqb name) columns.

(** The list both loops run over. *)
Definition regressor_names : list string :=
  [ "Price"; "Discount"; "Holiday/Promotion"; "Is_Summer"; "Is_Winter" ].

Definition KeyError : py_exception := PyExc "KeyError".

(** [df[(df['Product ID'] == product_id) & (df['Store ID'] == store_id)]]:
    reading a column that the frame lacks raises [KeyError]; the rows kept
    have the columns of the frame. *)
Definition filter_product_rows (columns : list string)
  : outcome (list string) :=
  if has_column columns "Product ID" && has_column columns "Store ID"
  then Returns columns
  else Raises KeyError.

(** [product_data[['Date', 'Units Sold']].rename(columns={'Date': 'ds',
    'Units Sold': 'y'})]: selecting a column that the frame lacks raises
    [KeyError]. *)
Definition select_ds_y (columns : list string) : outcome (list string) :=
  if has_column columns "Date" && has_column columns "Units Sold"
  then Returns [ "ds"; "y" ]
  else Raises KeyError.

(** [frame[name] = ...]: a new column goes to the end, an existing one keeps
    its place. *)
Definition assign_column (columns : list string) (name : string)
  : list string :=
  if has_column columns name then columns else columns ++ [name].

(** The first loop: [if regressor in product_data.columns:
    prophet_data[regressor] = product_data[regressor]]. *)
Fixpoint copy_regressors
    (product_columns names prophet_columns : list string) : list string :=
  match names with
  | [] => prophet_columns
  | regressor :: rest =>
      copy_regressors product_columns rest
        (if has_column product_columns regressor
         then assign_column prophet_columns regressor
         else prophet_columns)
  end.

(** The second loop: [if regressor in prophet_data.columns:
    model.add_regressor(regressor)]; the result lists the regressors in the
    order they were added. *)
Fixpoint add_regressors (prophet_columns names added : list string)
  : list string :=
  match names with
  | [] => added
  | regressor :: rest =>
      add_regressors prophet_columns rest
        (if has_column prophet_columns regressor
         then added ++ [regressor]
         else added)
  end.

(** [train_prophet_model] up to [model.fit]: the columns of [prophet_data]
    and the regressors registered on the model.  [columns] are the columns of
    the data frame [df]. *)
Definition train_prophet_model (columns : list string)
  : outcome (list string * list string) :=
  product_columns <- filter_product_rows columns ;;
  prophet_columns <- select_ds_y product_columns ;;
  let prophet_columns :=
    copy_regressors product_columns regressor_names prophet_columns in
  let regressors := add_regressors prophet_columns regressor_names [] in
  Returns (prophet_columns, regressors).

(** The four columns that the function reads by name. *)
Definition required_columns (columns : list string) : bool :=
  has_column columns "Product ID" && has_column columns "Store ID"
  && has_column columns "Date" && has_column columns "Units Sold".

End Endpoint.

(* ================================================================== *)
(** * JavaScript: the inventory pages *)
(* ================================================================== *)

Module Pages.

Local Open Scope string_scope.

(** An element of [recommendations] with the fields the pages read. *)
Record Recommendation : Type := {
  product_name : string;
  status : string;
  current_stock : Q
}.

(** An element of the uploaded [item] list. *)
Record Item : Type := {
  item_current_stock : Q;
  item_price : Q
}.

(** The statistics of the dashboard:
    [recommendations.filter(item => item.status === 'Reorder needed').length],
    [recommendations.filter(item => item.current_stock === 0).length] and
    [item.reduce((sum, item) => sum + (item.current_stock * item.price), 0)]. *)
Definition lowStock (recommendations : list Recommendation) : nat :=
  length (filter (fun item => status item =? "Reorder needed")
                 recommendations).

Definition outOfStock (recommendations : list Recommendation) : nat :=
  length (filter (fun item => Qeq_bool (current_stock item) 0)
                 recommendations).

Definition totalValue (items : list Item) : Q :=
  fold_left (fun sum item => (sum + item_current_stock item * item_price item)%Q)
            items 0%Q.

(** The inventory page: the class of a table row, and the classes that the
    template literal of the status badge inserts after its fixed ones. *)
Definition row_className (status : string) : string :=
  if status =? "Reorder needed" then "bg-red-50" else "".

Definition inventory_badge (status : string) : string :=
  if status =? "Reorder needed" then "bg-red-100 text-red-800"
  else "bg-green-100 text-green-800".

(** [inventory?.filter(item => item.product_name.toLowerCase()
    .includes(searchTerm.toLowerCase()))]; [inventory] is [null] until the
    data has arrived.  [toLowerCase] is the built-in of the language. *)
Definition filteredInventory
    (toLowerCase : string -> string)
    (inventory : option (list Recommendation)) (searchTerm : string)
  : option (list Recommendation) :=
  match inventory with
  | None => None
  | Some items =>
      Some (filter (fun item =>
                      AlertUI.includesb (toLowerCase (product_name item))
                                        (toLowerCase searchTerm))
                   items)
  end.

(** [toLowerCase] on the letters of ASCII. *)
Fixpoint ascii_toLowerCase (s : string) : string :=
  match s with
  | EmptyString => EmptyString
  | String c rest =>
      let n := nat_of_ascii c in
      String (if ((65 <=? n) && (n <=? 90))%nat
              then ascii_of_nat (n + 32) else c)
             (ascii_toLowerCase rest)
  end.

(** The least and the greatest value that [Math.pow(trendFactor, index)]
    can take over the seven days of the generated forecast. *)
Definition trend_low : Q := ForecastPage.Math_pow (95 # 100) 6.
Definition trend_high : Q := ForecastPage.Math_pow (105 # 100) 6.

(** ** The insights of the forecast page *)

Definition categoryInsights : list (string * list string) :=
  [ ("electronics",
     [ "High demand spike expected during tech launch season";
       "Gaming consoles showing strong growth trend";
       "Smart home devices demand increasing steadily";
       "Premium segment outperforming budget segment" ]);
    ("fashion",
     [ "Seasonal collection transition impacting sales";
       "Accessories showing consistent growth";
       "Premium brands maintaining steady demand";
       "Online sales outpacing offline channels" ]);
    ("groceries",
     [ "Fresh produce demand peaks on weekends";
       "Organic products showing strong growth";
       "Seasonal fruits driving category growth";
       "Private labels gaining market share" ]);
    ("home",
     [ "Work-from-home furniture demand remains strong";
       "Seasonal decor items trending upward";
       "Storage solutions in high demand";
       "Eco-friendly products gaining traction" ]);
    ("beauty",
     [ "Skincare segment leading category growth";
       "Natural products showing strong demand";
       "Premium brands maintaining market share";
       "New launches driving category momentum" ]);
    ("sports",
     [ "Home fitness equipment demand stable";
       "Seasonal sports gear trending up";
       "Premium athleisure showing strong growth";
       "Recovery products gaining popularity" ]) ].

Fixpoint own_insights (props : list (string * list string)) (key : string)
  : option (list string) :=
  match props with
  | [] => None
  | (k, v) :: rest => if k =? key then Some v else own_insights rest key
  end.

(** What [categoryInsights[category] || categoryInsights.electronics] can
    be: an array of texts, or a value inherited from [Object.prototype]
    (functions and objects are truthy, so [||] keeps them). *)
Inductive insights_value : Type :=
| InsightList (texts : list string)
| Inherited (v : AlertUI.js_value)
| NoInsights.

Definition insights (category : string) : insights_value :=
  match own_insights categoryInsights category with
  | Some texts => InsightList texts
  | None =>
      match AlertUI.own_property AlertUI.Object_prototype category with
      | Some v => Inherited v
      | None =>
          match own_insights categoryInsights "electronics" with
          | Some texts => InsightList texts
          | None => NoInsights
          end
      end
  end.

End Pages.

(* ================================================================== *)
(** * Properties of the inventory functions *)
(* ================================================================== *)

Module InventoryFacts.

Import Inventory.
Local Open Scope R_scope.

(** ** Sums and squared deviations *)

Lemma Rsum_repeat (c : R) (n : nat) : Rsum (repeat c n) = INR n * c.
Proof.
  induction n as [|n IH].
  - simpl. lra.
  - rewrite S_INR. simpl. rewrite IH. lra.
Qed.

Lemma sq_dev_nonneg (c : R) (xs : list R) : 0 <= sq_dev c xs.
Proof.
  unfold sq_dev. induction xs as [|x xs IH]; simpl.
  - lra.
  - pose proof (Rle_0_sqr (x - c)) as H. unfold Rsqr in H. lra.
Qed.

Lemma sq_dev_repeat (c : R) (n : nat) : sq_dev c (repeat c n) = 0.
Proof.
  unfold sq_dev. induction n as [|n IH]; simpl.
  - reflexivity.
  - rewrite IH. lra.
Qed.

(** ** The window [forecast[:lead_time]] *)

Lemma window_length (forecast : list R) (lead_time : nat) :
  (lead_time <= length forecast)%nat ->
  length (firstn lead_time forecast) = lead_time.
Proof.
  intros H. rewrite length_firstn. lia.
Qed.

Lemma window_nonempty (forecast : list R) (lead_time : nat) :
  (0 < lead_time <= length forecast)%nat ->
  firstn lead_time forecast <> [].
Proof.
  intros H Hnil.
  pose proof (window_length forecast lead_time (proj2 H)) as Hlen.
  rewrite Hnil in Hlen. simpl in Hlen. lia.
Qed.

Lemma window_of_repeat (c : R) (n lead_time : nat) :
  (lead_time <= n)%nat -> firstn lead_time (repeat c n) = repeat c lead_time.
Proof.
  revert n. induction lead_time as [|l IH]; intros n H.
  - reflexivity.
  - destruct n as [|n]; [lia |]. simpl. rewrite IH by lia. reflexivity.
Qed.

Lemma np_mean_nonempty (xs : list R) :
  xs <> [] -> np_mean xs = Fin (Rsum xs / INR (length xs)).
Proof.
  destruct xs; [congruence | reflexivity].
Qed.

Lemma np_std_nonempty (xs : list R) :
  xs <> [] ->
  np_std xs =
  Fin (sqrt (sq_dev (Rsum xs / INR (length xs)) xs / INR (length xs))).
Proof.
  intros H. unfold np_std. rewrite (np_mean_nonempty xs H). reflexivity.
Qed.

(** [std * sqrt(N)] is the root of the sum of squared deviations. *)
Lemma std_times_root (a : R) (n : nat) :
  0 <= a -> (0 < n)%nat -> sqrt (a / INR n) * sqrt (INR n) = sqrt a.
Proof.
  intros Ha Hn.
  assert (Hpos : 0 < INR n) by (apply lt_0_INR; exact Hn).
  rewrite <- sqrt_mult.
  - f_equal. field. lra.
  - apply Rmult_le_pos; [exact Ha | left; apply Rinv_0_lt_compat; exact Hpos].
  - lra.
Qed.

(** The reorder point in closed form: lead-time demand plus the safety
    factor times the root of the window's sum of squared deviations. *)
Lemma reorder_point_closed_form
    (forecast : list R) (lead_time : nat) (safety_stock_factor : R) :
  (0 < lead_time <= length forecast)%nat ->
  let window := firstn lead_time forecast in
  calculate_reorder_point forecast lead_time safety_stock_factor =
  Fin (Rsum window
       + safety_stock_factor
         * sqrt (sq_dev (Rsum window / INR lead_time) window)).
Proof.
  intros H window.
  pose proof (window_nonempty forecast lead_time H) as Hne.
  pose proof (window_length forecast lead_time (proj2 H)) as Hlen.
  fold window in Hne, Hlen.
  unfold calculate_reorder_point. fold window.
  rewrite (np_mean_nonempty window Hne), (np_std_nonempty window Hne).
  rewrite Hlen. cbv zeta. f_equal.
  assert (Hpos : 0 < INR lead_time) by (apply lt_0_INR; lia).
  rewrite Rmult_assoc.
  rewrite (std_times_root _ lead_time (sq_dev_nonneg _ _) (proj1 H)).
  field. lra.
Qed.

(** ** Reorder point *)

Lemma reorder_point_constant_demand
    (demand : R) (days lead_time : nat) (safety_stock_factor : R) :
  (0 < lead_time <= days)%nat ->
  calculate_reorder_point (repeat demand days) lead_time safety_stock_factor =
  Fin (demand * INR lead_time).
Proof.
  intros H.
  rewrite reorder_point_closed_form by (rewrite repeat_length; exact H).
  cbv zeta. rewrite window_of_repeat by lia.
  rewrite Rsum_repeat.
  assert (Hpos : 0 < INR lead_time) by (apply lt_0_INR; lia).
  replace (INR lead_time * demand / INR lead_time) with demand
    by (field; lra).
  rewrite sq_dev_repeat, sqrt_0. f_equal. ring.
Qed.

(** C1 (as amended).  For a lead time that the forecast covers,
    [calculate_reorder_point] returns
    [average_daily_demand * lead_time + safety_stock] with
    [safety_stock = safety_factor * demand_std * sqrt(lead_time)], where
    [average_daily_demand] is the mean of the first [lead_time] forecast
    values and [demand_std] is their POPULATION standard deviation (divisor
    [N], numpy's default), characterised here by [demand_std >= 0] and
    [N * demand_std^2 = sum of squared deviations from the mean].  For 30
    days of constant demand 10, lead time 7 and safety factor 1.5 the result
    is exactly 70. *)
Theorem reorder_point_formula :
  (forall (forecast : list R) (lead_time : nat) (safety_factor : R),
      (0 < lead_time <= length forecast)%nat ->
      exists average_daily_demand demand_std : R,
        calculate_reorder_point forecast lead_time safety_factor =
        Fin (average_daily_demand * INR lead_time
             + safety_factor * demand_std * sqrt (INR lead_time))
        /\ average_daily_demand * INR lead_time =
           Rsum (firstn lead_time forecast)
        /\ 0 <= demand_std
        /\ INR lead_time * (demand_std * demand_std) =
           sq_dev average_daily_demand (firstn lead_time forecast))
  /\ calculate_reorder_point (repeat 10 30) 7 (15 / 10) = Fin 70.
Proof.
  split.
  - intros forecast lead_time sf H.
    pose proof (window_nonempty forecast lead_time H) as Hne.
    pose proof (window_length forecast lead_time (proj2 H)) as Hlen.
    assert (Hpos : 0 < INR lead_time) by (apply lt_0_INR; lia).
    set (window := firstn lead_time forecast) in *.
    set (m := Rsum window / INR lead_time).
    exists m, (sqrt (sq_dev m window / INR lead_time)).
    repeat split.
    + unfold calculate_reorder_point. fold window.
      rewrite (np_mean_nonempty window Hne), (np_std_nonempty window Hne).
      rewrite Hlen. reflexivity.
    + unfold m. field. lra.
    + apply sqrt_pos.
    + rewrite sqrt_sqrt.
      * field. lra.
      * apply Rmult_le_pos;
          [apply sq_dev_nonneg | left; apply Rinv_0_lt_compat; exact Hpos].
  - rewrite reorder_point_constant_demand by lia.
    f_equal. simpl. lra.
Qed.

Lemma reorder_point_formula_witness :
  exists average_daily_demand demand_std : R,
    calculate_reorder_point [12; 8; 10] 2 1 =
    Fin (average_daily_demand * INR 2 + 1 * demand_std * sqrt (INR 2))
    /\ average_daily_demand * INR 2 = Rsum (firstn 2 [12; 8; 10])
    /\ 0 <= demand_std
    /\ INR 2 * (demand_std * demand_std) =
       sq_dev average_daily_demand (firstn 2 [12; 8; 10]).
Proof.
  apply (proj1 reorder_point_formula [12; 8; 10] 2%nat 1).
  simpl. lia.
Defined.

(** On the window [0; 2] the population deviation is 1 and the sample
    deviation is [sqrt 2]. *)
Lemma sqrt_2_squared : sqrt 2 * sqrt 2 = 2.
Proof. apply sqrt_sqrt. lra. Qed.

(** C1, counterexample.  With forecast [0; 2], lead time 2 and safety factor
    1 the specification's formula (sample deviation [sqrt 2]) gives 4, and
    the code (population deviation 1) gives [2 + sqrt 2], which is not 4. *)
Lemma reorder_point_sample_std_counterexample :
  InventorySpec.reorder_point [0; 2] 2 1 = Some 4
  /\ calculate_reorder_point [0; 2] 2 1 = Fin (2 + sqrt 2)
  /\ calculate_reorder_point [0; 2] 2 1 <> Fin 4.
Proof.
  assert (Hcode : calculate_reorder_point [0; 2] 2 1 = Fin (2 + sqrt 2)).
  { rewrite reorder_point_closed_form by (simpl; lia).
    cbv zeta. f_equal. unfold sq_dev. simpl.
    replace ((0 - (0 + (2 + 0)) / (1 + 1)) * (0 - (0 + (2 + 0)) / (1 + 1))
             + ((2 - (0 + (2 + 0)) / (1 + 1)) * (2 - (0 + (2 + 0)) / (1 + 1))
                + 0)) with 2 by field.
    lra. }
  repeat split.
  - unfold InventorySpec.reorder_point, InventorySpec.sample_std, sq_dev.
    simpl. f_equal.
    replace (((0 - (0 + (2 + 0)) / (1 + 1)) * (0 - (0 + (2 + 0)) / (1 + 1))
              + ((2 - (0 + (2 + 0)) / (1 + 1)) * (2 - (0 + (2 + 0)) / (1 + 1))
                 + 0)) / (1 + 1 - 1)) with 2 by field.
    replace (1 + 1) with 2 by lra.
    pose proof sqrt_2_squared. lra.
  - exact Hcode.
  - rewrite Hcode. intros Heq. injection Heq as Heq.
    pose proof sqrt_2_squared as Hsq.
    assert (Hs : sqrt 2 = 2) by lra.
    rewrite Hs in Hsq. lra.
Qed.

(** C6.  A window of a single forecast entry (lead time 1) has standard
    deviation 0, so the safety stock is 0 and the reorder point is that
    day's forecast: a finite number, not NaN. *)
Theorem reorder_point_single_entry :
  forall (x : R) (rest : list R) (safety_factor : R),
    np_std (firstn 1 (x :: rest)) = Fin 0
    /\ calculate_reorder_point (x :: rest) 1 safety_factor = Fin x
    /\ calculate_reorder_point (x :: rest) 1 safety_factor <> NaN.
Proof.
  intros x rest sf.
  assert (Hstd : np_std (firstn 1 (x :: rest)) = Fin 0).
  { unfold np_std, sq_dev. simpl. f_equal.
    replace (((x - (x + 0) / 1) * (x - (x + 0) / 1) + 0) / 1) with 0 by field.
    apply sqrt_0. }
  assert (Hrp : calculate_reorder_point (x :: rest) 1 sf = Fin x).
  { unfold calculate_reorder_point. rewrite Hstd. simpl. f_equal. field. }
  repeat split; [exact Hstd | exact Hrp | rewrite Hrp; discriminate].
Qed.

(** C8 (as amended).  The reorder point does not decrease when the safety
    factor grows, all other inputs being fixed. *)
Theorem reorder_point_monotone_in_safety_factor :
  forall (forecast : list R) (lead_time : nat) (sf1 sf2 : R),
    (0 < lead_time <= length forecast)%nat ->
    sf1 <= sf2 ->
    fle (calculate_reorder_point forecast lead_time sf1)
        (calculate_reorder_point forecast lead_time sf2).
Proof.
  intros forecast lead_time sf1 sf2 H Hsf.
  rewrite !reorder_point_closed_form by exact H.
  cbv zeta. simpl.
  pose proof (sqrt_pos (sq_dev (Rsum (firstn lead_time forecast)
                                / INR lead_time)
                               (firstn lead_time forecast))) as Hroot.
  nra.
Qed.

Lemma reorder_point_monotone_in_safety_factor_witness :
  fle (calculate_reorder_point [3; 9; 4] 2 1)
      (calculate_reorder_point [3; 9; 4] 2 2).
Proof.
  apply (reorder_point_monotone_in_safety_factor [3; 9; 4] 2%nat 1 2).
  - simpl. lia.
  - lra.
Defined.

(** C8, counterexample.  The forecast 0.9, 0, 0 has no negative demand and
    covers both lead times.  With safety factor 0 the code returns 0.9 for
    lead time 1, and for lead time 3 it returns [mean * 3] with the mean
    0.9 / 3 rounded to a double, which is 0.8999999999999999: the longer
    lead time gives the smaller reorder point. *)
Lemma reorder_point_lead_time_counterexample :
  Binary64.calculate_reorder_point Binary64.one_sale 1 PrimFloat.zero
  = Binary64.d0_9
  /\ Binary64.calculate_reorder_point Binary64.one_sale 3 PrimFloat.zero
     = Binary64.d0_9_pred
  /\ PrimFloat.ltb
       (Binary64.calculate_reorder_point Binary64.one_sale 3 PrimFloat.zero)
       (Binary64.calculate_reorder_point Binary64.one_sale 1 PrimFloat.zero)
     = true.
Proof.
  repeat split; vm_compute; reflexivity.
Qed.

(** In double precision too, thirty days of constant demand 10 with lead
    time 7 and safety factor 1.5 give exactly 70. *)
Example reorder_point_in_doubles :
  Binary64.calculate_reorder_point Binary64.constant_demand 7
    Binary64.default_safety_stock_factor
  = Binary64.of_nat 70.
Proof.
  vm_compute. reflexivity.
Qed.

(** ** Economic order quantity *)

Lemma calculate_eoq_positive_holding_cost (d s rate unit_cost : R) :
  0 <= 2 * d * s -> 0 < rate * unit_cost ->
  calculate_eoq d s rate unit_cost =
  Returns (PyFloat (sqrt (2 * d * s / (rate * unit_cost)))).
Proof.
  intros Hnum Hpos.
  unfold calculate_eoq, py_truediv. cbv zeta.
  destruct (Req_dec_T (rate * unit_cost) 0) as [Hz | Hnz]; [lra |].
  simpl. unfold py_pow_half.
  destruct (Rlt_dec (2 * d * s / (rate * unit_cost)) 0) as [Hneg | _].
  - exfalso.
    assert (0 <= 2 * d * s / (rate * unit_cost)).
    { apply Rmult_le_pos; [exact Hnum | left; apply Rinv_0_lt_compat; exact Hpos]. }
    lra.
  - reflexivity.
Qed.

Lemma sqrt_60000_bounds : 24494 / 100 <= sqrt 60000 <= 24496 / 100.
Proof.
  split.
  - rewrite <- (sqrt_square (24494 / 100)) by lra.
    apply sqrt_le_1_alt. lra.
  - rewrite <- (sqrt_square (24496 / 100)) by lra.
    apply sqrt_le_1_alt. lra.
Qed.

(** C2.  With non-negative demand and ordering cost, a rate in [0, 1], a
    positive unit cost and a positive holding cost
    [holding_cost = rate * unit_cost], [calculate_eoq] returns
    [sqrt (2 * annual_demand * ordering_cost / holding_cost)]; it returns 0
    for annual demand 0, and for annual demand 1200, ordering cost 50, rate
    0.2 and unit cost 10 it returns a value within 0.01 of 244.95. *)
Theorem eoq_formula :
  (forall annual_demand ordering_cost rate unit_cost : R,
      0 <= annual_demand -> 0 <= ordering_cost ->
      0 <= rate <= 1 -> 0 < unit_cost -> 0 < rate * unit_cost ->
      calculate_eoq annual_demand ordering_cost rate unit_cost =
      Returns (PyFloat (sqrt (2 * annual_demand * ordering_cost
                              / (rate * unit_cost)))))
  /\
  (forall ordering_cost rate unit_cost : R,
      0 <= ordering_cost ->
      0 <= rate <= 1 -> 0 < unit_cost -> 0 < rate * unit_cost ->
      calculate_eoq 0 ordering_cost rate unit_cost = Returns (PyFloat 0))
  /\
  (exists eoq : R,
      calculate_eoq 1200 50 (2 / 10) 10 = Returns (PyFloat eoq)
      /\ Rabs (eoq - 24495 / 100) <= 1 / 100).
Proof.
  split; [| split].
  - intros d s rate unit_cost Hd Hs _ _ Hh.
    apply calculate_eoq_positive_holding_cost; [nra | exact Hh].
  - intros s rate unit_cost Hs _ _ Hh.
    rewrite calculate_eoq_positive_holding_cost; [| nra | exact Hh].
    replace (2 * 0 * s / (rate * unit_cost)) with 0 by (unfold Rdiv; ring).
    rewrite sqrt_0. reflexivity.
  - exists (sqrt 60000). split.
    + rewrite calculate_eoq_positive_holding_cost by lra.
      do 3 f_equal. field.
    + pose proof sqrt_60000_bounds.
      apply Rabs_le. lra.
Qed.

Lemma eoq_formula_witness :
  calculate_eoq 1200 50 (2 / 10) 10 =
  Returns (PyFloat (sqrt (2 * 1200 * 50 / (2 / 10 * 10))))
  /\ calculate_eoq 0 50 (2 / 10) 10 = Returns (PyFloat 0).
Proof.
  split.
  - apply (proj1 eoq_formula 1200 50 (2 / 10) 10); lra.
  - apply (proj1 (proj2 eoq_formula) 50 (2 / 10) 10); lra.
Defined.

(** C3, counterexample.  With a holding-cost rate of 0 the call does not fail
    with [InvalidCostParametersError]: the division is carried out and it is
    the runtime's [ZeroDivisionError] that ends the call. *)
Lemma eoq_zero_rate_counterexample :
  calculate_eoq 1200 50 0 10 = Raises ZeroDivisionError
  /\ calculate_eoq 1200 50 0 10 <> Raises InvalidCostParametersError.
Proof.
  assert (H : calculate_eoq 1200 50 0 10 = Raises ZeroDivisionError).
  { unfold calculate_eoq, py_truediv. cbv zeta.
    destruct (Req_dec_T (0 * 10) 0) as [_ | Hnz]; [reflexivity | lra]. }
  split; [exact H | rewrite H; discriminate].
Qed.

(** C3 (as amended).  [calculate_eoq] returns no result when the holding
    cost [rate * unit_cost] is 0, in particular when the rate is 0: the
    division by zero is carried out and the call ends with
    [ZeroDivisionError].  No input makes it raise
    [InvalidCostParametersError], and a negative holding cost raises nothing:
    the call returns a value. *)
Theorem eoq_zero_holding_cost :
  (forall annual_demand ordering_cost rate unit_cost : R,
      rate * unit_cost = 0 ->
      calculate_eoq annual_demand ordering_cost rate unit_cost =
      Raises ZeroDivisionError)
  /\
  (forall annual_demand ordering_cost unit_cost : R,
      calculate_eoq annual_demand ordering_cost 0 unit_cost =
      Raises ZeroDivisionError)
  /\
  (forall annual_demand ordering_cost rate unit_cost : R,
      calculate_eoq annual_demand ordering_cost rate unit_cost <>
      Raises InvalidCostParametersError)
  /\
  (forall annual_demand ordering_cost rate unit_cost : R,
      rate * unit_cost < 0 ->
      exists v : pynum,
        calculate_eoq annual_demand ordering_cost rate unit_cost = Returns v).
Proof.
  assert (Hzero : forall d s rate unit_cost : R,
             rate * unit_cost = 0 ->
             calculate_eoq d s rate unit_cost = Raises ZeroDivisionError).
  { intros d s rate unit_cost Hz.
    unfold calculate_eoq, py_truediv. cbv zeta.
    destruct (Req_dec_T (rate * unit_cost) 0) as [_ | Hnz];
      [reflexivity | contradiction]. }
  split; [exact Hzero | split; [| split]].
  - intros d s unit_cost. apply Hzero. ring.
  - intros d s rate unit_cost.
    unfold calculate_eoq, py_truediv. cbv zeta.
    destruct (Req_dec_T (rate * unit_cost) 0); simpl; discriminate.
  - intros d s rate unit_cost Hneg.
    unfold calculate_eoq, py_truediv. cbv zeta.
    destruct (Req_dec_T (rate * unit_cost) 0) as [Hz | _]; [lra |].
    simpl. eexists. reflexivity.
Qed.

Lemma eoq_zero_holding_cost_witness :
  calculate_eoq 1200 50 0 10 = Raises ZeroDivisionError
  /\ exists v : pynum, calculate_eoq 1200 50 (2 / 10) (- 10) = Returns v.
Proof.
  split.
  - apply (proj1 eoq_zero_holding_cost 1200 50 0 10). lra.
  - apply (proj2 (proj2 (proj2 eoq_zero_holding_cost)) 1200 50 (2 / 10) (- 10)).
    lra.
Defined.

(** ** Days until stockout *)

Lemma np_mean_cases (xs : list R) :
  np_mean xs = NaN \/ exists m : R, np_mean xs = Fin m.
Proof.
  destruct xs as [|x xs]; [left | right; eexists]; reflexivity.
Qed.

Lemma gt_zero_Fin (a : R) : gt_zero (Fin a) = true <-> 0 < a.
Proof.
  unfold gt_zero. destruct (Rlt_dec 0 a); split; intros; auto; discriminate.
Qed.

(** The guarded quotient: a positive divisor gives the quotient, anything
    else (zero, negative, NaN) gives the literal infinity, and no division
    that could warn or produce NaN is ever carried out. *)
Lemma days_until_stockout_cases (latest : R) (avg : float64) :
  (forall a : R, avg = Fin a -> 0 < a ->
     days_until_stockout latest avg = (Fin (latest / a), []))
  /\ (gt_zero avg = false -> days_until_stockout latest avg = (PosInf, []))
  /\ fst (days_until_stockout latest avg) <> NaN
  /\ snd (days_until_stockout latest avg) = [].
Proof.
  unfold days_until_stockout.
  destruct avg as [a | | |]; simpl.
  - destruct (Rlt_dec 0 a) as [Hpos | Hnpos].
    + destruct (Req_dec_T a 0) as [Hz | _]; [lra |]. simpl.
      repeat split; try discriminate.
      intros a' Ha' _. injection Ha' as <-. reflexivity.
    + simpl. repeat split; try discriminate.
      intros a' Ha' Hpos'. injection Ha' as <-. contradiction.
  - repeat split; discriminate.
  - repeat split; discriminate.
  - repeat split; discriminate.
Qed.

(** No demand at all, and no forecast day at all (the mean of an empty
    tail is NaN), both give the literal infinity; a positive mean gives the
    quotient. *)
Example stockout_without_demand :
  days_until_stockout 25 (np_mean [0; 0; 0]) = (PosInf, [])
  /\ days_until_stockout 25 (np_mean (tail 0 [4; 6])) = (PosInf, [])
  /\ days_until_stockout 30 (np_mean [4; 6]) = (Fin 6, []).
Proof.
  split; [| split].
  - apply (days_until_stockout_cases 25 (np_mean [0; 0; 0])).
    unfold gt_zero, np_mean.
    destruct (Rlt_dec 0 (Rsum [0; 0; 0] / INR (length [0; 0; 0])))
      as [H | _]; [| reflexivity].
    exfalso. simpl in H. lra.
  - reflexivity.
  - rewrite (proj1 (days_until_stockout_cases 30 (np_mean [4; 6])) 5).
    + do 2 f_equal. field.
    + unfold np_mean. f_equal. simpl. field.
    + lra.
Qed.

(** The function itself returns for a product that has rows. *)
Lemma get_forecast_returned
    (inventory_level : list R) (forecast : list ForecastRow)
    (forecast_days : nat) :
  inventory_level <> [] ->
  let horizon := map yhat (tail forecast_days forecast) in
  get_forecast inventory_level forecast forecast_days =
  Returned {| resp_forecast := tail forecast_days forecast;
              resp_current_inventory := last inventory_level 0;
              resp_average_daily_demand := np_mean horizon;
              resp_reorder_point :=
                calculate_reorder_point horizon 7 default_safety_stock_factor;
              resp_days_until_stockout :=
                fst (days_until_stockout (last inventory_level 0)
                                         (np_mean horizon)) |}.
Proof.
  intros Hne horizon.
  destruct inventory_level as [|i0 rest]; [congruence | reflexivity].
Qed.

Lemma reorder_point_finite_of_mean (xs : list R) (lead_time : nat) (sf a : R) :
  np_mean xs = Fin a ->
  json_finite (calculate_reorder_point xs (S lead_time) sf) = true.
Proof.
  intros Hmean. destruct xs as [|x xs]; [discriminate |].
  unfold calculate_reorder_point.
  assert (Hw : firstn (S lead_time) (x :: xs) <> []) by discriminate.
  rewrite (np_mean_nonempty _ Hw), (np_std_nonempty _ Hw). reflexivity.
Qed.

(** C4.  The function guards the quotient: with a positive average daily
    demand [days_until_stockout] is [current stock / average daily demand],
    never NaN and never the result of a division by zero, and the route
    answers 200 with it.  In every other case the function produces the
    sentinel [float('inf')], but the sentinel never reaches the caller: the
    rendering of the response rejects it and the route answers 500. *)
Theorem stockout_sentinel_answers_500 :
  forall (inventory_level : list R) (forecast : list ForecastRow)
         (forecast_days : nat),
    inventory_level <> [] ->
    let average_daily_demand :=
      np_mean (map yhat (tail forecast_days forecast)) in
    (forall a : R,
        average_daily_demand = Fin a -> 0 < a ->
        exists body : ForecastResponse,
          post_api_forecast inventory_level forecast forecast_days = Ok200 body
          /\ resp_days_until_stockout body = Fin (last inventory_level 0 / a))
    /\ (gt_zero average_daily_demand = false ->
        (exists body : ForecastResponse,
            get_forecast inventory_level forecast forecast_days =
            Returned body
            /\ resp_days_until_stockout body = PosInf)
        /\ post_api_forecast inventory_level forecast forecast_days =
           ErrorResponse 500).
Proof.
  intros inventory_level forecast forecast_days Hne avg.
  pose proof (get_forecast_returned inventory_level forecast forecast_days Hne)
    as Hret. cbv zeta in Hret. fold avg in Hret.
  destruct (days_until_stockout_cases (last inventory_level 0) avg)
    as (Hq & Hinf & _ & _).
  unfold post_api_forecast. rewrite Hret. unfold json_compliant.
  cbn [resp_average_daily_demand resp_reorder_point resp_days_until_stockout].
  split.
  - intros a Ha Hpos.
    rewrite (Hq a Ha Hpos). cbn [fst].
    rewrite (reorder_point_finite_of_mean _ 6 _ a Ha), Ha. cbn [json_finite andb].
    eexists. split; reflexivity.
  - intros Hgt. rewrite (Hinf Hgt). cbn [fst json_finite].
    rewrite !andb_false_r.
    split; [eexists; split; reflexivity | reflexivity].
Qed.

Lemma stockout_sentinel_answers_500_witness :
  (exists body : ForecastResponse,
      get_forecast [25] zero_demand_rows 2 = Returned body
      /\ resp_days_until_stockout body = PosInf)
  /\ post_api_forecast [25] zero_demand_rows 2 = ErrorResponse 500.
Proof.
  assert (Hne : [25] <> []) by discriminate.
  apply (proj2 (stockout_sentinel_answers_500 [25] zero_demand_rows 2%nat Hne)).
  unfold gt_zero, np_mean. simpl.
  destruct (Rlt_dec 0 ((0 + (0 + 0)) / (1 + 1))) as [H | _]; [| reflexivity].
  exfalso. lra.
Defined.

End InventoryFacts.

(* ================================================================== *)
(** * Properties of the forecast page's generator *)
(* ================================================================== *)

Module ForecastPageFacts.

Import ForecastPage.
Local Open Scope Q_scope.

(** ** Rounding *)

Lemma Math_round_monotone (x y : Q) :
  x <= y -> (Math_round x <= Math_round y)%Z.
Proof.
  intros H. unfold Math_round. apply Qfloor_resp_le. lra.
Qed.

Lemma Math_round_integer (z : Z) : Math_round (inject_Z z) = z.
Proof.
  unfold Math_round.
  apply Z.le_antisymm.
  - assert (H : inject_Z (Qfloor (inject_Z z + (1 # 2))) < inject_Z (z + 1)).
    { pose proof (Qfloor_le (inject_Z z + (1 # 2))) as Hle.
      rewrite inject_Z_plus. change (inject_Z 1) with 1. lra. }
    rewrite <- Zlt_Qlt in H. lia.
  - rewrite <- (Qfloor_Z z) at 1. apply Qfloor_resp_le. lra.
Qed.

Lemma Math_round_nonneg (x : Q) : 0 <= x -> (0 <= Math_round x)%Z.
Proof.
  intros H. change 0%Z with (Math_round (inject_Z 0)) at 1.
  - apply Math_round_monotone. exact H.
Qed.

(** The band of fifteen per cent around a non-negative integer keeps the
    integer between its rounded ends. *)
Lemma band_around_integer (p : Z) :
  (0 <= p)%Z ->
  (Math_round (inject_Z p - inject_Z p * (15 # 100)) <= p
   <= Math_round (inject_Z p + inject_Z p * (15 # 100)))%Z.
Proof.
  intros Hp.
  assert (Hq : 0 <= inject_Z p).
  { change 0 with (inject_Z 0). rewrite <- Zle_Qle. exact Hp. }
  pose proof (Math_round_monotone
                (inject_Z p - inject_Z p * (15 # 100)) (inject_Z p)) as Hlow.
  pose proof (Math_round_monotone
                (inject_Z p) (inject_Z p + inject_Z p * (15 # 100))) as Hup.
  rewrite Math_round_integer in Hlow, Hup.
  split; [apply Hlow | apply Hup]; lra.
Qed.


(** ** The generated predictions *)

Lemma prediction_at_within_bounds
    (random : nat -> Q) (isoDate : nat -> Z) (baseValue : Z)
    (seasonalFactor trendFactor : Q)
    (index n : nat) :
  (0 <= baseValue)%Z -> 0 <= seasonalFactor -> 0 <= trendFactor ->
  within_bounds
    (fst (prediction_at random isoDate baseValue seasonalFactor trendFactor
                        index n)).
Proof.
  intros Hb Hs Ht.
  assert (Hp : (0 <= Math_round (inject_Z baseValue
                                 * Math_pow trendFactor index
                                 * seasonalFactor))%Z).
  { apply Math_round_nonneg.
    apply Qmult_le_0_compat; [apply Qmult_le_0_compat |].
    - change 0 with (inject_Z 0). rewrite <- Zle_Qle. exact Hb.
    - unfold Math_pow. apply Qpower_0_le. exact Ht.
    - exact Hs. }
  unfold prediction_at, bind, ret, Math_random, within_bounds.
  destruct (index <? 3)%nat; simpl; apply band_around_integer; exact Hp.
Qed.

Lemma map_indices_Forall {A} (P : A -> Prop) (f : nat -> Rand A) :
  (forall index n, P (fst (f index n))) ->
  forall count index n, Forall P (fst (map_indices f index count n)).
Proof.
  intros Hf. induction count as [|count IH]; intros index n.
  - simpl. constructor.
  - simpl. unfold bind, ret.
    specialize (Hf index n).
    destruct (f index n) as [a n1].
    specialize (IH (S index) n1).
    destruct (map_indices f (S index) count n1) as [rest n2].
    simpl in *. constructor; assumption.
Qed.

Lemma map_indices_length {A} (f : nat -> Rand A) :
  forall count index n, length (fst (map_indices f index count n)) = count.
Proof.
  induction count as [|count IH]; intros index n.
  - reflexivity.
  - simpl. unfold bind, ret.
    destruct (f index n) as [a n1].
    specialize (IH (S index) n1).
    destruct (map_indices f (S index) count n1) as [rest n2].
    simpl in *. congruence.
Qed.

(** C7.  Every entry of the forecast that the page generates has its
    predicted value between its lower and its upper bound, whatever values
    of [0, 1) the random source returns. *)
Theorem generated_forecast_within_bounds :
  forall (random : nat -> Q) (isoDate : nat -> Z) (n : nat),
    valid_random random ->
    length (fst (generateDummyData random isoDate n)) = 7%nat
    /\ Forall within_bounds (fst (generateDummyData random isoDate n)).
Proof.
  intros random isoDate n Hrand.
  unfold generateDummyData, bind, Math_random.
  split; [apply map_indices_length |].
  apply map_indices_Forall. intros index k.
  destruct (Hrand n) as [H1 _].
  destruct (Hrand (S n)) as [H2 _].
  destruct (Hrand (S (S n))) as [H3 _].
  apply prediction_at_within_bounds.
  - assert (0 <= Math_floor (random n * 1000))%Z; [| lia].
    unfold Math_floor. change 0%Z with (Qfloor 0).
    apply Qfloor_resp_le. lra.
  - lra.
  - lra.
Qed.

Lemma generated_forecast_within_bounds_witness :
  length (fst (generateDummyData (fun _ => 1 # 2) Z.of_nat 0%nat)) = 7%nat
  /\ Forall within_bounds (fst (generateDummyData (fun _ => 1 # 2) Z.of_nat 0%nat)).
Proof.
  apply (generated_forecast_within_bounds (fun _ => 1 # 2) Z.of_nat 0%nat).
  intros k. split; [discriminate | reflexivity].
Defined.

End ForecastPageFacts.

(* ================================================================== *)
(** * Properties of the status rule and of the dashboard's badges *)
(* ================================================================== *)

Module DashboardFacts.

Import Dashboard.
Local Open Scope R_scope.

(** The three labels are the ones [getStatusStyle] knows: each has a badge
    of its own, and none falls through to the default badge. *)
Lemma status_badges :
  getStatusStyle (status_label ReorderNeeded) =
    "bg-red-100 text-red-800 border-red-200"%string
  /\ getStatusStyle (status_label Sufficient) =
    "bg-green-100 text-green-800 border-green-200"%string
  /\ getStatusStyle (status_label OutOfStock) =
    "bg-red-500 text-white border-red-600"%string
  /\ forall s : Status,
       getStatusStyle (status_label s) <>
       "bg-blue-100 text-blue-800 border-blue-200"%string.
Proof.
  repeat split; try reflexivity.
  intros []; vm_compute; discriminate.
Qed.

(** C5.  The status depends on the current stock and the reorder point
    only: it is [OutOfStock] when the stock is 0, whatever the reorder point
    (and so whatever the forecast), [ReorderNeeded] when the stock is
    positive and at most the reorder point, and [Sufficient] otherwise;
    there is no fourth status. *)
Theorem status_rule :
  forall current_stock reorder_point : R,
    0 <= current_stock ->
    (current_stock = 0 ->
     evaluate_status current_stock reorder_point = OutOfStock)
    /\ (0 < current_stock <= reorder_point ->
        evaluate_status current_stock reorder_point = ReorderNeeded)
    /\ (current_stock <> 0 -> ~ 0 < current_stock <= reorder_point ->
        evaluate_status current_stock reorder_point = Sufficient)
    /\ (evaluate_status current_stock reorder_point = OutOfStock
        \/ evaluate_status current_stock reorder_point = ReorderNeeded
        \/ evaluate_status current_stock reorder_point = Sufficient).
Proof.
  intros cs rp Hcs. unfold evaluate_status.
  destruct (Req_dec_T cs 0) as [Hz | Hnz];
    [| destruct (Rle_dec cs rp) as [Hle | Hgt]].
  - repeat split; auto; intros; lra.
  - repeat split; auto; intros; lra.
  - repeat split; auto; intros; lra.
Qed.

Lemma status_rule_witness :
  (0 = 0 -> evaluate_status 0 70 = OutOfStock)
  /\ (0 < 0 <= 70 -> evaluate_status 0 70 = ReorderNeeded)
  /\ (0 <> 0 -> ~ 0 < 0 <= 70 -> evaluate_status 0 70 = Sufficient)
  /\ (evaluate_status 0 70 = OutOfStock
      \/ evaluate_status 0 70 = ReorderNeeded
      \/ evaluate_status 0 70 = Sufficient).
Proof.
  apply (status_rule 0 70). lra.
Defined.

End DashboardFacts.

(* ================================================================== *)
(** * Properties of the Alert component *)
(* ================================================================== *)

Module AlertFacts.

Import AlertUI.
Local Open Scope string_scope.

Lemma prefix_append (t post : string) : String.prefix t (t ++ post) = true.
Proof.
  induction t as [|a t IH]; simpl.
  - destruct post; reflexivity.
  - destruct (ascii_dec a a) as [_ | Hne]; [exact IH | congruence].
Qed.

Lemma includesb_prefix (s t : string) :
  String.prefix t s = true -> includesb s t = true.
Proof.
  intros H. destruct s; cbn [includesb]; rewrite H; reflexivity.
Qed.

(** [includesb] finds every occurrence. *)
Lemma includes_includesb (s t : string) : includes s t -> includesb s t = true.
Proof.
  intros (pre & post & ->).
  induction pre as [|a pre IH].
  - apply includesb_prefix. cbn [append]. apply prefix_append.
  - cbn [append includesb]. rewrite IH. apply orb_true_r.
Qed.

Lemma own_property_undeclared (variant : string) :
  ~ In variant declared_variants -> own_property variants variant = None.
Proof.
  intros Hnot. unfold declared_variants in Hnot. simpl in Hnot.
  unfold variants. cbn [own_property].
  repeat match goal with
  | |- context [String.eqb ?k variant] =>
      let H := fresh in
      destruct (String.eqb_spec k variant) as [H | H];
      [exfalso; apply Hnot; rewrite <- H; tauto |]
  end.
  reflexivity.
Qed.

(** C10, counterexample.  ["constructor"] is none of the four variants, yet
    the lookup finds the inherited property, not [undefined], and the class
    string does not contain ["undefined"]. *)
Lemma alert_inherited_key_counterexample :
  ~ In "constructor" declared_variants
  /\ variant_style (Some "constructor") = JsFunction "Object"
  /\ variant_style (Some "constructor") <> JsUndefined
  /\ ~ includes (Alert_className (Some "constructor") None) "undefined".
Proof.
  repeat split.
  - simpl. intros H. repeat (destruct H as [H | H]; [discriminate |]). exact H.
  - discriminate.
  - intros H. apply includes_includesb in H. vm_compute in H. discriminate.
Qed.

(** C10 (as amended).  The four declared variants (and a missing [variant]
    prop, which means ['default']) give their style; any other string that
    is not the name of a property inherited from [Object.prototype] gives
    [undefined], with no fallback to the default style, and the class string
    then reads [rounded-md p-4 undefined] followed by the caller's classes. *)
Theorem alert_variant_lookup :
  (variant_style None = JsString "bg-blue-50 text-blue-800"
   /\ variant_style (Some "default") = JsString "bg-blue-50 text-blue-800"
   /\ variant_style (Some "destructive") = JsString "bg-red-50 text-red-800"
   /\ variant_style (Some "success") = JsString "bg-green-50 text-green-800"
   /\ variant_style (Some "warning") = JsString "bg-yellow-50 text-yellow-800")
  /\
  (forall (variant : string) (className : option string),
      ~ In variant declared_variants ->
      own_property Object_prototype variant = None ->
      variant_style (Some variant) = JsUndefined
      /\ Alert_className (Some variant) className =
         "rounded-md p-4 undefined "
         ++ match className with Some c => c | None => "" end
      /\ includes (Alert_className (Some variant) className) "undefined").
Proof.
  split.
  - repeat split; reflexivity.
  - intros variant className Hnot Hproto.
    assert (Hstyle : variant_style (Some variant) = JsUndefined).
    { unfold variant_style, js_get.
      rewrite (own_property_undeclared variant Hnot), Hproto. reflexivity. }
    assert (Hcls : Alert_className (Some variant) className =
                   "rounded-md p-4 undefined "
                   ++ match className with Some c => c | None => "" end).
    { unfold Alert_className. rewrite Hstyle. reflexivity. }
    repeat split; [exact Hstyle | exact Hcls |].
    rewrite Hcls.
    exists "rounded-md p-4 ",
           (" " ++ match className with Some c => c | None => "" end).
    reflexivity.
Qed.

Lemma alert_variant_lookup_witness :
  variant_style (Some "info") = JsUndefined
  /\ Alert_className (Some "info") (Some "mb-4") =
     "rounded-md p-4 undefined mb-4"
  /\ includes (Alert_className (Some "info") (Some "mb-4")) "undefined".
Proof.
  apply (proj2 alert_variant_lookup "info" (Some "mb-4")).
  - simpl. intros H. repeat (destruct H as [H | H]; [discriminate |]). exact H.
  - reflexivity.
Defined.

End AlertFacts.

(* ================================================================== *)
(** * Properties of the ensemble reconciliation *)
(* ================================================================== *)

Module EnsembleFacts.

Import Ensemble.
Local Open Scope R_scope.

Lemma same_horizon_refl (F : PointForecast) : same_horizon F F = true.
Proof.
  unfold same_horizon.
  destruct (list_eq_dec Z.eq_dec (horizon F) (horizon F)); congruence.
Qed.

(** Two shares of the same forecast that add up to one give it back. *)
Lemma blend_halves (a : R) (F : PointForecast) :
  a + a = 1 ->
  zip_with add_point (map (scale a) F) (map (scale a) F) = F.
Proof.
  intros Ha. induction F as [|e F IH]; simpl.
  - reflexivity.
  - rewrite IH. f_equal.
    destruct e as [d m lo up]. unfold add_point, scale. simpl.
    f_equal.
    + replace (a * m + a * m) with ((a + a) * m) by ring. rewrite Ha. ring.
    + replace (a * lo + a * lo) with ((a + a) * lo) by ring. rewrite Ha. ring.
    + replace (a * up + a * up) with ((a + a) * up) by ring. rewrite Ha. ring.
Qed.

(** Equal raw weights of two components are normalised to two equal shares
    of one, also when both are zero. *)
Lemma normalised_equal_pair (m1 m2 : string) (w : R) :
  exists a : R,
    a + a = 1
    /\ normalised_weights [m1; m2] [(m1, w); (m2, w)] = [a; a].
Proof.
  unfold normalised_weights.
  assert (H1 : lookup_weight [(m1, w); (m2, w)] m1 = w).
  { simpl. rewrite String.eqb_refl. reflexivity. }
  assert (H2 : lookup_weight [(m1, w); (m2, w)] m2 = w).
  { simpl. destruct (String.eqb m1 m2); [reflexivity |].
    rewrite String.eqb_refl. reflexivity. }
  cbn [map]. rewrite H1, H2. cbn [fold_right length].
  destruct (Req_dec_T (w + (w + 0)) 0) as [Hz | Hnz].
  - exists (1 / INR 2). split; [simpl; field | reflexivity].
  - exists (w / (w + (w + 0))). split; [field; lra | reflexivity].
Qed.

Lemma combine_equal_pair (F : PointForecast) (m1 m2 : string) (w : R) :
  combine [(m1, F); (m2, F)] [(m1, w); (m2, w)] =
  inr {| entries := F; component_forecasts := [(m1, F); (m2, F)] |}.
Proof.
  unfold combine. cbn [forallb snd]. rewrite same_horizon_refl. cbn [andb].
  cbn [map fst snd].
  destruct (normalised_equal_pair m1 m2 w) as (a & Ha & ->).
  unfold weighted_sum. cbn [List.combine fold_left fst snd].
  rewrite (blend_halves a F Ha). reflexivity.
Qed.

(** C9.  Combining the ensemble of two components that are the same
    forecast [F], with equal weights, gives a reconciled forecast whose
    entries (date, mean, lower and upper bound) are those of [F], and keeps
    the two components.  This holds for the static equal weights and for
    any pair of equal raw weights, which the combination normalises. *)
Theorem blend_identical_components :
  forall (F : PointForecast) (m1 m2 : string),
    combine [(m1, F); (m2, F)] (equal_weights [m1; m2]) =
    inr {| entries := F; component_forecasts := [(m1, F); (m2, F)] |}
    /\ forall w : R,
         combine [(m1, F); (m2, F)] [(m1, w); (m2, w)] =
         inr {| entries := F; component_forecasts := [(m1, F); (m2, F)] |}.
Proof.
  intros F m1 m2. split.
  - unfold equal_weights. cbn [map length]. apply combine_equal_pair.
  - intros w. apply combine_equal_pair.
Qed.

(** A forecast of two days, blended with itself. *)
Example blend_two_days :
  let F := [ {| date := 1; mean := 10; lower_bound := 8; upper_bound := 12 |};
             {| date := 2; mean := 11; lower_bound := 8; upper_bound := 14 |} ]
  in
  combine [("prophet"%string, F); ("lstm"%string, F)]
          (equal_weights ["prophet"%string; "lstm"%string]) =
  inr {| entries := F;
         component_forecasts := [("prophet"%string, F); ("lstm"%string, F)] |}.
Proof.
  intros F. unfold equal_weights. cbn [map length]. apply combine_equal_pair.
Qed.

End EnsembleFacts.

(* ================================================================== *)
(** * Further properties of the reorder point *)
(* ================================================================== *)

Module ReorderPointFacts.

Import Inventory InventoryFacts.
Local Open Scope R_scope.

(** The reorder point of any window that is not empty. *)
Lemma reorder_point_of_window
    (forecast : list R) (lead_time : nat) (safety_stock_factor : R) :
  firstn lead_time forecast <> [] ->
  let window := firstn lead_time forecast in
  let n := INR (length window) in
  calculate_reorder_point forecast lead_time safety_stock_factor =
  Fin (Rsum window / n * INR lead_time
       + safety_stock_factor * sqrt (sq_dev (Rsum window / n) window / n)
         * sqrt (INR lead_time)).
Proof.
  intros Hne window n. fold window in Hne.
  unfold calculate_reorder_point. fold window.
  rewrite (np_mean_nonempty window Hne), (np_std_nonempty window Hne).
  reflexivity.
Qed.

Lemma window_empty_iff (forecast : list R) (lead_time : nat) :
  firstn lead_time forecast = [] <-> lead_time = 0%nat \/ forecast = [].
Proof.
  split.
  - destruct lead_time as [|l]; [auto |].
    destruct forecast as [|x xs]; [auto | discriminate].
  - intros [-> | ->]; [reflexivity | apply firstn_nil].
Qed.

(** X1.  The reorder point is NaN exactly when the window is empty, that is,
    for a lead time of 0 or an empty forecast; in every other case it is a
    finite number. *)
Theorem reorder_point_nan_iff :
  forall (forecast : list R) (lead_time : nat) (safety_factor : R),
    (calculate_reorder_point forecast lead_time safety_factor = NaN
     <-> lead_time = 0%nat \/ forecast = [])
    /\ (calculate_reorder_point forecast lead_time safety_factor <> NaN ->
        exists r : R,
          calculate_reorder_point forecast lead_time safety_factor = Fin r).
Proof.
  intros forecast lead_time sf.
  rewrite <- window_empty_iff.
  destruct (firstn lead_time forecast) as [|x w] eqn:Hw.
  - assert (Hnan : calculate_reorder_point forecast lead_time sf = NaN).
    { unfold calculate_reorder_point. rewrite Hw. reflexivity. }
    rewrite Hnan. split; [tauto | congruence].
  - assert (Hne : firstn lead_time forecast <> []) by (rewrite Hw; discriminate).
    rewrite (reorder_point_of_window forecast lead_time sf Hne).
    split; [split; discriminate | intros _; eexists; reflexivity].
Qed.

Lemma reorder_point_nan_iff_witness :
  calculate_reorder_point [4; 6] 0 1 = NaN
  /\ exists r : R, calculate_reorder_point [4; 6] 1 1 = Fin r.
Proof.
  split.
  - apply (proj1 (reorder_point_nan_iff [4; 6] 0%nat 1)). left. reflexivity.
  - apply (proj2 (reorder_point_nan_iff [4; 6] 1%nat 1)).
    intros H. apply (proj1 (reorder_point_nan_iff [4; 6] 1%nat 1)) in H.
    destruct H; discriminate.
Defined.

(** X2.  A lead time beyond the end of the forecast is no error: the
    window is the whole forecast, and its mean and deviation are scaled to
    the lead time. *)
Theorem reorder_point_short_forecast :
  forall (forecast : list R) (lead_time : nat) (safety_factor : R),
    forecast <> [] ->
    (length forecast <= lead_time)%nat ->
    exists m sd : R,
      np_mean forecast = Fin m
      /\ np_std forecast = Fin sd
      /\ calculate_reorder_point forecast lead_time safety_factor =
         Fin (m * INR lead_time + safety_factor * sd * sqrt (INR lead_time)).
Proof.
  intros forecast lead_time sf Hne Hlen.
  unfold calculate_reorder_point.
  rewrite (firstn_all2 forecast Hlen).
  rewrite (np_std_nonempty forecast Hne), (np_mean_nonempty forecast Hne).
  do 2 eexists. repeat split; reflexivity.
Qed.

Lemma reorder_point_short_forecast_witness :
  exists m sd : R,
    np_mean [4; 6] = Fin m
    /\ np_std [4; 6] = Fin sd
    /\ calculate_reorder_point [4; 6] 7 1 =
       Fin (m * INR 7 + 1 * sd * sqrt (INR 7)).
Proof.
  apply (reorder_point_short_forecast [4; 6] 7%nat 1).
  - discriminate.
  - simpl. lia.
Defined.

End ReorderPointFacts.

(* ================================================================== *)
(** * A further property of the economic order quantity *)
(* ================================================================== *)

Module EoqFacts.

Import Inventory InventoryFacts.
Local Open Scope R_scope.

(** X8.  The quantity grows with the demand and with the ordering cost and
    shrinks when the holding cost grows. *)
Theorem eoq_monotone :
  forall d1 d2 s1 s2 rate1 rate2 unit_cost : R,
    0 <= d1 <= d2 -> 0 <= s1 <= s2 ->
    0 < rate1 * unit_cost <= rate2 * unit_cost ->
    exists q_low q_high : R,
      calculate_eoq d1 s1 rate2 unit_cost = Returns (PyFloat q_low)
      /\ calculate_eoq d2 s2 rate1 unit_cost = Returns (PyFloat q_high)
      /\ q_low <= q_high.
Proof.
  intros d1 d2 s1 s2 rate1 rate2 unit_cost Hd Hs Hh.
  assert (H1 : 0 <= 2 * d1 * s1) by nra.
  assert (H2 : 0 <= 2 * d2 * s2) by nra.
  assert (H12 : 2 * d1 * s1 <= 2 * d2 * s2) by nra.
  do 2 eexists. split; [| split].
  - apply calculate_eoq_positive_holding_cost; [exact H1 | lra].
  - apply calculate_eoq_positive_holding_cost; [exact H2 | lra].
  - apply sqrt_le_1_alt.
    unfold Rdiv.
    assert (Hinv : / (rate2 * unit_cost) <= / (rate1 * unit_cost)).
    { apply Rinv_le_contravar; lra. }
    assert (Hpos2 : 0 < / (rate2 * unit_cost))
      by (apply Rinv_0_lt_compat; lra).
    nra.
Qed.

Lemma eoq_monotone_witness :
  exists q_low q_high : R,
    calculate_eoq 1000 40 (3 / 10) 10 = Returns (PyFloat q_low)
    /\ calculate_eoq 1200 50 (2 / 10) 10 = Returns (PyFloat q_high)
    /\ q_low <= q_high.
Proof.
  apply (eoq_monotone 1000 1200 40 50 (2 / 10) (3 / 10) 10); lra.
Defined.

End EoqFacts.

(* ================================================================== *)
(** * Properties of the forecast endpoint and of the model's regressors *)
(* ================================================================== *)

Module EndpointFacts.

Import Inventory InventoryFacts Endpoint.
Local Open Scope R_scope.

Lemma tail_empty {A} (forecast : list A) (forecast_days : nat) :
  forecast_days = 0%nat \/ forecast = [] -> tail forecast_days forecast = [].
Proof.
  unfold tail. intros [-> | ->].
  - rewrite Nat.sub_0_r. apply skipn_all.
  - reflexivity.
Qed.

Lemma tail_length {A} (forecast : list A) (forecast_days : nat) :
  length (tail forecast_days forecast) =
  Nat.min forecast_days (length forecast).
Proof.
  unfold tail. rewrite length_skipn. lia.
Qed.

(** X11.  The endpoint is its [try] block under its handler, and the
    handler catches the 404 that the block raises for a product without
    rows: the caller gets a 500, never a 404. *)
Theorem get_forecast_hides_not_found :
  forall (inventory_level : list R) (forecast : list ForecastRow)
         (forecast_days : nat),
    get_forecast inventory_level forecast forecast_days =
    except_Exception (get_forecast_try inventory_level forecast forecast_days)
    /\ get_forecast_try [] forecast forecast_days = TryRaiseHTTP 404
    /\ get_forecast [] forecast forecast_days = HTTPException 500
    /\ get_forecast inventory_level forecast forecast_days <>
       HTTPException 404.
Proof.
  intros inventory_level forecast forecast_days.
  assert (Heq : get_forecast inventory_level forecast forecast_days =
                except_Exception
                  (get_forecast_try inventory_level forecast forecast_days)).
  { destruct inventory_level; reflexivity. }
  split; [exact Heq |]. split; [reflexivity |]. split; [reflexivity |].
  destruct inventory_level; discriminate.
Qed.

(** X12.  With no forecast day to average (a horizon of 0 days, or an empty
    prediction) the function still returns for a product that has rows: the
    forecast is empty, the average daily demand and the reorder point are
    NaN, and the days until stockout are the literal infinity.  None of
    these can be rendered, so the route answers 500. *)
Theorem get_forecast_empty_horizon :
  forall (inventory_level : list R) (forecast : list ForecastRow)
         (forecast_days : nat),
    inventory_level <> [] ->
    forecast_days = 0%nat \/ forecast = [] ->
    (exists body : ForecastResponse,
        get_forecast inventory_level forecast forecast_days = Returned body
        /\ resp_forecast body = []
        /\ resp_average_daily_demand body = NaN
        /\ resp_reorder_point body = NaN
        /\ resp_days_until_stockout body = PosInf)
    /\ post_api_forecast inventory_level forecast forecast_days =
       ErrorResponse 500.
Proof.
  intros inventory_level forecast forecast_days Hne Hempty.
  destruct inventory_level as [|i0 rest]; [congruence |].
  unfold post_api_forecast, get_forecast. cbv zeta.
  rewrite (tail_empty forecast forecast_days Hempty).
  split; [| reflexivity].
  eexists. split; [reflexivity |].
  repeat split.
Qed.

Lemma get_forecast_empty_horizon_witness :
  (exists body : ForecastResponse,
      get_forecast [30; 20] sample_rows 0 = Returned body
      /\ resp_forecast body = []
      /\ resp_average_daily_demand body = NaN
      /\ resp_reorder_point body = NaN
      /\ resp_days_until_stockout body = PosInf)
  /\ post_api_forecast [30; 20] sample_rows 0 = ErrorResponse 500.
Proof.
  apply (get_forecast_empty_horizon [30; 20] sample_rows 0%nat).
  - discriminate.
  - left. reflexivity.
Defined.

(** ** The regressors of the model *)

Local Open Scope string_scope.

(** X14.  When the frame has the columns [Product ID], [Store ID], [Date]
    and [Units Sold], the regressors registered on the model are exactly the
    names of the list that are columns of the frame, in the order of the
    list, and the training frame consists of [ds], [y] and one column for
    each of them, so every registered regressor has its column.  Without
    one of the four columns the call ends with [KeyError]. *)
Theorem train_prophet_model_regressors :
  forall columns : list string,
    (required_columns columns = true ->
     let regressors := filter (has_column columns) regressor_names in
     train_prophet_model columns =
     Returns (([ "ds"; "y" ] ++ regressors)%list, regressors))
    /\ (required_columns columns = false ->
        train_prophet_model columns = Raises KeyError).
Proof.
  intros columns. unfold required_columns. split.
  - intros Hreq. cbv zeta.
    apply andb_prop in Hreq. destruct Hreq as [Hreq Hunits].
    apply andb_prop in Hreq. destruct Hreq as [Hreq Hdate].
    apply andb_prop in Hreq. destruct Hreq as [Hproduct Hstore].
    unfold train_prophet_model, filter_product_rows, select_ds_y.
    rewrite Hproduct, Hstore. cbn [andb Inventory.bind].
    rewrite Hdate, Hunits. cbn [andb Inventory.bind].
    unfold regressor_names.
    cbn [copy_regressors filter].
    destruct (has_column columns "Price");
      destruct (has_column columns "Discount");
      destruct (has_column columns "Holiday/Promotion");
      destruct (has_column columns "Is_Summer");
      destruct (has_column columns "Is_Winter");
      vm_compute; reflexivity.
  - intros Hmiss.
    unfold train_prophet_model, filter_product_rows, select_ds_y.
    destruct (has_column columns "Product ID");
      destruct (has_column columns "Store ID");
      cbn [andb Inventory.bind]; try reflexivity.
    destruct (has_column columns "Date");
      destruct (has_column columns "Units Sold");
      cbn [andb Inventory.bind]; try reflexivity.
    discriminate.
Qed.

Lemma train_prophet_model_regressors_witness :
  train_prophet_model
    [ "Date"; "Store ID"; "Product ID"; "Units Sold"; "Price"; "Is_Winter" ] =
  Returns ([ "ds"; "y"; "Price"; "Is_Winter" ], [ "Price"; "Is_Winter" ]).
Proof.
  apply (proj1 (train_prophet_model_regressors
                  [ "Date"; "Store ID"; "Product ID"; "Units Sold"; "Price";
                    "Is_Winter" ])).
  reflexivity.
Defined.

End EndpointFacts.

(* ================================================================== *)
(** * Further properties of the forecast page's generator *)
(* ================================================================== *)

Module GeneratorFacts.

Import ForecastPage ForecastPageFacts.
Import Pages.
Local Open Scope Q_scope.

(** What holds for the result of the callback at every index holds for the
    element at that position of the generated array. *)
Lemma map_indices_nth {A} (P : nat -> A -> Prop) (f : nat -> Rand A) :
  (forall index n, P index (fst (f index n))) ->
  forall count index n k a,
    nth_error (fst (map_indices f index count n)) k = Some a ->
    P (index + k)%nat a.
Proof.
  intros Hf. induction count as [|count IH]; intros index n k a.
  - simpl. destruct k; discriminate.
  - simpl. unfold bind, ret.
    specialize (Hf index n).
    destruct (f index n) as [a0 n1].
    specialize (IH (S index) n1).
    destruct (map_indices f (S index) count n1) as [rest n2].
    simpl in *. destruct k as [|k]; simpl.
    + intros [= <-]. rewrite Nat.add_0_r. exact Hf.
    + intros Hk. replace (index + S k)%nat with (S index + k)%nat by lia.
      apply IH. exact Hk.
Qed.

Lemma generated_at
    (P : nat -> Prediction -> Prop) (random : nat -> Q) (isoDate : nat -> Z) (n : nat) :
  (forall baseValue seasonalFactor trendFactor index k,
      (500 <= baseValue <= 1499)%Z ->
      (85 # 100) <= seasonalFactor <= (115 # 100) ->
      (95 # 100) <= trendFactor <= (105 # 100) ->
      P index (fst (prediction_at random isoDate baseValue seasonalFactor
                                  trendFactor index k))) ->
  valid_random random ->
  forall k p,
    nth_error (fst (generateDummyData random isoDate n)) k = Some p -> P k p.
Proof.
  intros HP Hrand k p Hk.
  unfold generateDummyData, bind, Math_random in Hk.
  apply (map_indices_nth P) in Hk; [exact Hk |].
  intros index m.
  destruct (Hrand n) as [H1 H1'].
  destruct (Hrand (S n)) as [H2 H2'].
  destruct (Hrand (S (S n))) as [H3 H3'].
  apply HP.
  - unfold Math_floor.
    assert (Hlo : (Qfloor 0 <= Qfloor (random n * 1000))%Z)
      by (apply Qfloor_resp_le; lra).
    assert (Hhi : (Qfloor (random n * 1000) < 1000)%Z).
    { rewrite Zlt_Qlt.
      apply Qle_lt_trans with (random n * 1000); [apply Qfloor_le |].
      change (inject_Z 1000) with 1000. lra. }
    change (Qfloor 0) with 0%Z in Hlo. lia.
  - lra.
  - lra.
Qed.

Lemma generated_length (random : nat -> Q) (isoDate : nat -> Z) (n : nat) :
  length (fst (generateDummyData random isoDate n)) = 7%nat.
Proof.
  unfold generateDummyData, bind, Math_random. apply map_indices_length.
Qed.

Lemma half_stream_valid : valid_random (fun _ => 1 # 2).
Proof.
  intros k. split; [discriminate | reflexivity].
Defined.

(** ** The size of the predicted values *)

Lemma Math_pow_succ (x : Q) (n : nat) :
  Math_pow x (S n) == Math_pow x n * x.
Proof.
  unfold Math_pow. rewrite Nat2Z.inj_succ. unfold Z.succ.
  rewrite Qpower_plus' by lia. reflexivity.
Qed.

Lemma Math_pow_nonneg (x : Q) (n : nat) : 0 <= x -> 0 <= Math_pow x n.
Proof.
  intros H. unfold Math_pow. apply Qpower_0_le. exact H.
Qed.

Lemma Math_pow_monotone (a b : Q) (n : nat) :
  0 <= a -> a <= b -> Math_pow a n <= Math_pow b n.
Proof.
  intros Ha Hab. induction n as [|n IH].
  - unfold Math_pow. simpl. apply Qle_refl.
  - rewrite !Math_pow_succ.
    apply Qmult_le_compat_nonneg; split;
      [apply Math_pow_nonneg; exact Ha | exact IH | exact Ha | exact Hab].
Qed.

Lemma trend_within (trendFactor : Q) (index : nat) :
  (index < 7)%nat ->
  (95 # 100) <= trendFactor <= (105 # 100) ->
  trend_low <= Math_pow trendFactor index <= trend_high.
Proof.
  intros Hi [Hlo Hhi]. split.
  - apply Qle_trans with (Math_pow (95 # 100) index).
    + do 7 (destruct index as [|index]; [vm_compute; discriminate |]). lia.
    + apply Math_pow_monotone; [discriminate | exact Hlo].
  - apply Qle_trans with (Math_pow (105 # 100) index).
    + apply Math_pow_monotone; [lra | exact Hhi].
    + do 7 (destruct index as [|index]; [vm_compute; discriminate |]). lia.
Qed.

Lemma predicted_within
    (baseValue : Z) (seasonalFactor trendFactor : Q) (index : nat) :
  (index < 7)%nat ->
  (500 <= baseValue <= 1499)%Z ->
  (85 # 100) <= seasonalFactor <= (115 # 100) ->
  (95 # 100) <= trendFactor <= (105 # 100) ->
  (312 <= Math_round (inject_Z baseValue * Math_pow trendFactor index
                      * seasonalFactor) <= 2310)%Z.
Proof.
  intros Hi [Hb1 Hb2] [Hs1 Hs2] Ht.
  destruct (trend_within trendFactor index Hi Ht) as [Ht1 Ht2].
  assert (Hb1q : 500 <= inject_Z baseValue).
  { change 500 with (inject_Z 500). rewrite <- Zle_Qle. exact Hb1. }
  assert (Hb2q : inject_Z baseValue <= 1499).
  { change 1499 with (inject_Z 1499). rewrite <- Zle_Qle. exact Hb2. }
  assert (Hl0 : 0 <= trend_low) by (vm_compute; discriminate).
  split.
  - change 312%Z with (Math_round (500 * trend_low * (85 # 100))).
    apply Math_round_monotone.
    apply Qmult_le_compat_nonneg; split;
      [ apply Qmult_le_0_compat; [discriminate | exact Hl0]
      | apply Qmult_le_compat_nonneg; split;
          [discriminate | exact Hb1q | exact Hl0 | exact Ht1]
      | discriminate
      | exact Hs1 ].
  - change 2310%Z with (Math_round (1499 * trend_high * (115 # 100))).
    apply Math_round_monotone.
    apply Qmult_le_compat_nonneg; split;
      [ apply Qmult_le_0_compat; [lra | lra]
      | apply Qmult_le_compat_nonneg; split;
          [lra | exact Hb2q | lra | exact Ht2]
      | lra
      | exact Hs2 ].
Qed.

(** X16.  Every predicted value is a positive number of units, between 312
    and 2310, and so are both of its bounds positive. *)
Theorem generated_predicted_range :
  forall (random : nat -> Q) (isoDate : nat -> Z) (n : nat),
    valid_random random ->
    forall k p,
      nth_error (fst (generateDummyData random isoDate n)) k = Some p ->
      (312 <= predicted p <= 2310)%Z /\ (0 < lower p)%Z /\ (0 < upper p)%Z.
Proof.
  intros random isoDate n Hrand k p Hk.
  assert (Hlt : (k < 7)%nat).
  { rewrite <- (generated_length random isoDate n).
    apply nth_error_Some. rewrite Hk. discriminate. }
  revert Hlt.
  apply (generated_at
           (fun k p => (k < 7)%nat ->
                       (312 <= predicted p <= 2310)%Z
                       /\ (0 < lower p)%Z /\ (0 < upper p)%Z)
           random isoDate n); [| exact Hrand | exact Hk].
  intros baseValue seasonalFactor trendFactor index m Hb Hs Ht Hi.
  pose proof (predicted_within baseValue seasonalFactor trendFactor index
                Hi Hb Hs Ht) as Hp.
  unfold prediction_at, bind, ret, Math_random.
  set (pr := Math_round (inject_Z baseValue * Math_pow trendFactor index
                         * seasonalFactor)) in *.
  assert (Hq : 312 <= inject_Z pr).
  { change 312 with (inject_Z 312). rewrite <- Zle_Qle. lia. }
  assert (Hlow : (1 <= Math_round (inject_Z pr - inject_Z pr * (15 # 100)))%Z).
  { change 1%Z with (Math_round (inject_Z 1)) at 1.
    - apply Math_round_monotone. change (inject_Z 1) with 1. lra. }
  assert (Hup : (1 <= Math_round (inject_Z pr + inject_Z pr * (15 # 100)))%Z).
  { change 1%Z with (Math_round (inject_Z 1)) at 1.
    - apply Math_round_monotone. change (inject_Z 1) with 1. lra. }
  destruct (index <? 3)%nat; simpl; repeat split; lia.
Qed.

Lemma generated_predicted_range_witness :
  Forall (fun p => (312 <= predicted p <= 2310)%Z
                   /\ (0 < lower p)%Z /\ (0 < upper p)%Z)
         (fst (generateDummyData (fun _ => 1 # 2) Z.of_nat 0%nat)).
Proof.
  apply Forall_forall. intros p Hin.
  apply In_nth_error in Hin. destruct Hin as [k Hk].
  apply (generated_predicted_range (fun _ => 1 # 2) Z.of_nat 0%nat
           half_stream_valid k p Hk).
Defined.

(** ** The actual values *)

(** X17.  The first three days carry an actual value and the other four
    carry none; an actual value lies between 95 and 105 per cent of the
    predicted one (both rounded), so it is positive. *)
Theorem generated_actual_values :
  forall (random : nat -> Q) (isoDate : nat -> Z) (n : nat),
    valid_random random ->
    forall k p,
      nth_error (fst (generateDummyData random isoDate n)) k = Some p ->
      ((k < 3)%nat ->
       exists a : Z,
         actual p = Some a
         /\ (Math_round (inject_Z (predicted p) * (95 # 100)) <= a
             <= Math_round (inject_Z (predicted p) * (105 # 100)))%Z
         /\ (0 < a)%Z)
      /\ ((3 <= k)%nat -> actual p = None).
Proof.
  intros random isoDate n Hrand k p Hk.
  assert (Hlt : (k < 7)%nat).
  { rewrite <- (generated_length random isoDate n).
    apply nth_error_Some. rewrite Hk. discriminate. }
  revert Hlt.
  apply (generated_at
           (fun k p =>
              (k < 7)%nat ->
              ((k < 3)%nat ->
               exists a : Z,
                 actual p = Some a
                 /\ (Math_round (inject_Z (predicted p) * (95 # 100)) <= a
                     <= Math_round (inject_Z (predicted p) * (105 # 100)))%Z
                 /\ (0 < a)%Z)
              /\ ((3 <= k)%nat -> actual p = None))
           random isoDate n); [| exact Hrand | exact Hk].
  intros baseValue seasonalFactor trendFactor index m Hb Hs Ht Hi.
  pose proof (predicted_within baseValue seasonalFactor trendFactor index
                Hi Hb Hs Ht) as Hp.
  unfold prediction_at, bind, ret, Math_random.
  set (pr := Math_round (inject_Z baseValue * Math_pow trendFactor index
                         * seasonalFactor)) in *.
  assert (Hq : 312 <= inject_Z pr).
  { change 312 with (inject_Z 312). rewrite <- Zle_Qle. lia. }
  destruct (Hrand m) as [Hr0 Hr1].
  destruct (Nat.ltb_spec index 3) as [Hlt3 | Hge3]; simpl.
  - split; [| intros; lia]. intros _.
    eexists. split; [reflexivity |].
    assert (Hlo : (Math_round (inject_Z pr * (95 # 100))
                   <= Math_round (inject_Z pr
                                  * (random m * (1 # 10) + (95 # 100))))%Z).
    { apply Math_round_monotone.
      apply Qmult_le_compat_nonneg; split; lra. }
    assert (Hhi : (Math_round (inject_Z pr
                               * (random m * (1 # 10) + (95 # 100)))
                   <= Math_round (inject_Z pr * (105 # 100)))%Z).
    { apply Math_round_monotone.
      apply Qmult_le_compat_nonneg; split; lra. }
    assert (Hpos : (1 <= Math_round (inject_Z pr * (95 # 100)))%Z).
    { change 1%Z with (Math_round (inject_Z 1)) at 1.
      - apply Math_round_monotone. change (inject_Z 1) with 1. lra. }
    repeat split; lia.
  - split; [intros; lia | reflexivity].
Qed.

Lemma generated_actual_values_witness :
  Forall (fun p => actual p = None \/ exists a : Z, actual p = Some a /\ (0 < a)%Z)
         (fst (generateDummyData (fun _ => 1 # 2) Z.of_nat 0%nat)).
Proof.
  apply Forall_forall. intros p Hin.
  apply In_nth_error in Hin. destruct Hin as [k Hk].
  destruct (generated_actual_values (fun _ => 1 # 2) Z.of_nat 0%nat
              half_stream_valid k p Hk) as [Hfirst Hrest].
  destruct (Nat.ltb_spec k 3) as [Hlt | Hge].
  - right. destruct (Hfirst Hlt) as (a & Ha & _ & Hpos).
    exists a. split; assumption.
  - left. apply Hrest. exact Hge.
Defined.

End GeneratorFacts.

(* ================================================================== *)
(** * Properties of the inventory pages *)
(* ================================================================== *)

Module PagesFacts.

Import Dashboard Pages.
Local Open Scope string_scope.

(** X18.  [getStatusStyle] gives the default (blue) badge exactly for the
    statuses that are none of the three texts it knows; the comparison is
    exact, so a text that differs in case is one of them. *)
Theorem getStatusStyle_default_iff :
  forall status : string,
    (getStatusStyle status = "bg-blue-100 text-blue-800 border-blue-200"
     <-> status <> "Reorder needed"
         /\ status <> "Stock sufficient"
         /\ status <> "Out of Stock")
    /\ getStatusStyle "Out of stock" =
       "bg-blue-100 text-blue-800 border-blue-200".
Proof.
  intros status. split; [| reflexivity].
  unfold getStatusStyle.
  destruct (String.eqb_spec status "Reorder needed") as [-> | H1].
  { split; [discriminate | intros (H & _ & _); congruence]. }
  destruct (String.eqb_spec status "Stock sufficient") as [-> | H2].
  { split; [discriminate | intros (_ & H & _); congruence]. }
  destruct (String.eqb_spec status "Out of Stock") as [-> | H3].
  { split; [discriminate | intros (_ & _ & H); congruence]. }
  split; [intros _; auto | reflexivity].
Qed.

(** X19.  On the inventory page a row is highlighted and its badge is red
    exactly when the status is ['Reorder needed'], the same statuses for
    which the dashboard shows its reorder badge; every other status, ['Out
    of Stock'] included, gets the green badge there. *)
Theorem inventory_badge_agrees :
  forall status : string,
    (row_className status = "bg-red-50" <-> status = "Reorder needed")
    /\ (inventory_badge status = "bg-red-100 text-red-800"
        <-> status = "Reorder needed")
    /\ (getStatusStyle status = "bg-red-100 text-red-800 border-red-200"
        <-> status = "Reorder needed")
    /\ (status <> "Reorder needed" ->
        inventory_badge status = "bg-green-100 text-green-800"
        /\ row_className status = "")
    /\ inventory_badge (status_label OutOfStock) =
       "bg-green-100 text-green-800".
Proof.
  intros status.
  unfold row_className, inventory_badge, getStatusStyle.
  destruct (String.eqb_spec status "Reorder needed") as [-> | H1].
  - repeat split; auto; congruence.
  - destruct (String.eqb_spec status "Stock sufficient") as [-> | H2];
      [| destruct (String.eqb_spec status "Out of Stock") as [-> | H3]];
      repeat split; auto; try discriminate; try congruence.
Qed.

Lemma inventory_badge_agrees_witness :
  inventory_badge "Stock sufficient" = "bg-green-100 text-green-800"
  /\ row_className "Stock sufficient" = "".
Proof.
  apply (proj1 (proj2 (proj2 (proj2 (inventory_badge_agrees
                                       "Stock sufficient"))))).
  discriminate.
Defined.

(** ** The statistics of the dashboard *)

Lemma filter_length_le {A} (f : A -> bool) (xs : list A) :
  (length (filter f xs) <= length xs)%nat.
Proof.
  induction xs as [|x xs IH]; simpl; [lia |].
  destruct (f x); simpl; lia.
Qed.

(** X20.  The counters of the dashboard never exceed the number of
    recommendations, they add up over two batches of recommendations, and
    a recommendation whose stock is 0 and whose status is ['Reorder needed']
    is counted by both of them. *)
Theorem dashboard_counters :
  forall a b : list Recommendation,
    (lowStock a <= length a)%nat
    /\ (outOfStock a <= length a)%nat
    /\ lowStock (a ++ b) = (lowStock a + lowStock b)%nat
    /\ outOfStock (a ++ b) = (outOfStock a + outOfStock b)%nat
    /\ forall name : string,
         let item := {| product_name := name;
                        status := "Reorder needed";
                        current_stock := 0 |} in
         lowStock (item :: a) = S (lowStock a)
         /\ outOfStock (item :: a) = S (outOfStock a).
Proof.
  intros a b. unfold lowStock, outOfStock.
  repeat split; try apply filter_length_le;
    rewrite ?filter_app, ?length_app; reflexivity.
Qed.

Local Open Scope Q_scope.

Lemma totalValue_from (items : list Item) (start : Q) :
  fold_left (fun sum item => sum + item_current_stock item * item_price item)
            items start
  == start + totalValue items.
Proof.
  unfold totalValue. revert start.
  induction items as [|x xs IH]; intros start; simpl.
  - ring.
  - rewrite (IH (start + item_current_stock x * item_price x)).
    rewrite (IH (0 + item_current_stock x * item_price x)).
    ring.
Qed.

(** X21.  The total inventory value is 0 when there is no item, and it is
    never negative when no stock and no price is negative. *)
Theorem totalValue_nonnegative :
  forall items : list Item,
    totalValue [] == 0
    /\ (Forall (fun item => 0 <= item_current_stock item
                            /\ 0 <= item_price item) items ->
        0 <= totalValue items).
Proof.
  intros items. split; [reflexivity |].
  induction 1 as [|x xs [Hs Hp] _ IH].
  - discriminate.
  - unfold totalValue. simpl. rewrite totalValue_from.
    pose proof (Qmult_le_0_compat _ _ Hs Hp). lra.
Qed.

Lemma totalValue_nonnegative_witness :
  0 <= totalValue [ {| item_current_stock := 3; item_price := 5 # 2 |} ].
Proof.
  apply (proj2 (totalValue_nonnegative
                  [ {| item_current_stock := 3; item_price := 5 # 2 |} ])).
  repeat constructor; discriminate.
Defined.

Local Close Scope Q_scope.

(** ** The search box of the inventory page *)

Lemma includesb_empty (s : string) : AlertUI.includesb s "" = true.
Proof.
  destruct s; reflexivity.
Qed.

(** X22.  With an empty search term the inventory page lists every
    product, whatever the names are; before the data has arrived there is
    no list at all. *)
Theorem filteredInventory_empty_search :
  forall (toLowerCase : string -> string)
         (inventory : list Recommendation),
    toLowerCase "" = "" ->
    filteredInventory toLowerCase (Some inventory) "" = Some inventory
    /\ forall searchTerm : string,
         filteredInventory toLowerCase None searchTerm = None.
Proof.
  intros toLowerCase inventory Hempty. split; [| reflexivity].
  unfold filteredInventory. rewrite Hempty. f_equal.
  induction inventory as [|item rest IH]; simpl.
  - reflexivity.
  - rewrite includesb_empty, IH. reflexivity.
Qed.

Lemma filteredInventory_empty_search_witness :
  filteredInventory ascii_toLowerCase
    (Some [ {| product_name := "Laptop"; status := "Stock sufficient";
               current_stock := 4 |} ]) "" =
  Some [ {| product_name := "Laptop"; status := "Stock sufficient";
            current_stock := 4 |} ]
  /\ forall searchTerm : string,
       filteredInventory ascii_toLowerCase None searchTerm = None.
Proof.
  apply (filteredInventory_empty_search ascii_toLowerCase).
  reflexivity.
Defined.

(** ** The insights of the forecast page *)

Lemma own_insights_unknown (category : string) :
  ~ In category (map fst categoryInsights) ->
  own_insights categoryInsights category = None.
Proof.
  intros Hnot. unfold categoryInsights in *. cbn [map fst] in Hnot.
  cbn [own_insights].
  repeat match goal with
  | |- context [String.eqb ?k category] =>
      let H := fresh in
      destruct (String.eqb_spec k category) as [H | H];
      [exfalso; apply Hnot; rewrite <- H; simpl; tauto |]
  end.
  reflexivity.
Qed.

(** X23.  The insights of a category that has none of its own and is not
    the name of an inherited property are those of electronics; for every
    category that is not the name of an inherited property the insights are
    a list of four texts. *)
Theorem insights_fallback :
  forall category : string,
    AlertUI.own_property AlertUI.Object_prototype category = None ->
    (~ In category (map fst categoryInsights) ->
     insights category = insights "electronics")
    /\ exists texts : list string,
         insights category = InsightList texts /\ length texts = 4%nat.
Proof.
  intros category Hproto. split.
  - intros Hnot. unfold insights at 1.
    rewrite (own_insights_unknown category Hnot), Hproto. reflexivity.
  - unfold insights. rewrite Hproto.
    unfold categoryInsights. cbn [own_insights].
    repeat match goal with
    | |- context [String.eqb ?k category] =>
        destruct (String.eqb k category);
        [eexists; split; reflexivity |]
    end.
    eexists. split; reflexivity.
Qed.

Lemma insights_fallback_witness :
  (~ In "toys" (map fst categoryInsights) ->
   insights "toys" = insights "electronics")
  /\ exists texts : list string,
       insights "toys" = InsightList texts /\ length texts = 4%nat.
Proof.
  apply (insights_fallback "toys"). reflexivity.
Defined.

End PagesFacts.
